(** * Sistema bancario 2.0: a shallow embedding of [app.py]

    The development follows the layout of the program: text utilities,
    the data model ([Usuario], [Conta]), the registries of holders and
    accounts, the primitive ledger operations ([deposito], [saque],
    [exibir_extrato]) and the per-account facades.

    Conventions of the embedding.
    - A Python [str] is a sequence of code points.  It is embedded as a
      [string] whose elements are the code points 0..255; every literal of
      the program lies in that range.  Characters that are not ASCII are
      written by their code point ([codigo]).
    - A Python [float] is an IEEE 754 binary64 number: a [spec_float] with
      the operations of [SpecFloat] at precision 53 and maximal exponent
      1024 (sums and differences are rounded to nearest even, as the
      hardware does).
    - A Python [int] is a [Z].
    - A [dict] is a [gmap]; a [list] is a [list].
    - [raise ValueError(msg)] is the result [Levanta (ValueError msg)].
      Code that mutates its argument and may raise lives in the monad
      [Efeito S], which returns the state reached together with the
      outcome, so that what was mutated before a [raise] is not lost.
    - The clock ([datetime.now()]) is an explicit argument of every
      operation that reads it. *)

From Stdlib Require Import ZArith String Ascii List Lia DecimalString.
From Stdlib Require Import Floats.SpecFloat.
From stdpp Require Import gmap strings list fin_maps sorting.

Local Open Scope string_scope.
Local Open Scope Z_scope.

(** ** Text *)

(** The one-character string of code point [n]. *)
Definition codigo (n : N) : string := String (ascii_of_N n) EmptyString.

Definition nl : string := codigo 10.

(** [str.isdigit] on the code points below 256: the ASCII digits and the
    superscripts U+00B2, U+00B3 and U+00B9. *)
Definition isdigit (ch : ascii) : bool :=
  let n := N_of_ascii ch in
  ((48 <=? n) && (n <=? 57) || (n =? 178) || (n =? 179) || (n =? 185))%N.

(** [str.isspace] on the code points below 256. *)
Definition isspace (ch : ascii) : bool :=
  let n := N_of_ascii ch in
  ((9 <=? n) && (n <=? 13) || (28 <=? n) && (n <=? 32)
   || (n =? 133) || (n =? 160))%N.

Fixpoint filtrar_texto (p : ascii -> bool) (s : string) : string :=
  match s with
  | EmptyString => EmptyString
  | String ch s' =>
      if p ch then String ch (filtrar_texto p s') else filtrar_texto p s'
  end.

(** [s.replace(old, new)] for a one-character [old]. *)
Fixpoint replace (old : ascii) (new : string) (s : string) : string :=
  match s with
  | EmptyString => EmptyString
  | String ch s' =>
      if Ascii.eqb ch old then new +:+ replace old new s'
      else String ch (replace old new s')
  end.

Fixpoint lstrip (s : string) : string :=
  match s with
  | EmptyString => EmptyString
  | String ch s' => if isspace ch then lstrip s' else s
  end.

Fixpoint rstrip (s : string) : string :=
  match s with
  | EmptyString => EmptyString
  | String ch s' =>
      match rstrip s' with
      | EmptyString => if isspace ch then EmptyString else String ch EmptyString
      | r => String ch r
      end
  end.

(** [s.strip()] *)
Definition strip (s : string) : string := rstrip (lstrip s).

(** [sep.join(linhas)] *)
Fixpoint join (sep : string) (linhas : list string) : string :=
  match linhas with
  | [] => EmptyString
  | [x] => x
  | x :: xs => x +:+ sep +:+ join sep xs
  end.

(** Every character of [s] satisfies [p]. *)
Fixpoint todos (p : ascii -> bool) (s : string) : bool :=
  match s with
  | EmptyString => true
  | String ch s' => p ch && todos p s'
  end.

(** The lines [linhas], in their order, each one after a line break. *)
Fixpoint linhas_em_ordem (linhas : list string) : string :=
  match linhas with
  | [] => EmptyString
  | x :: xs => nl +:+ x +:+ linhas_em_ordem xs
  end.

(** ** Numbers and dates *)

Definition float : Type := spec_float.

Definition fadd : float -> float -> float := SFadd 53 1024.
Definition fsub : float -> float -> float := SFsub 53 1024.

(** [x <= y] and [x > y] on floats; both are [False] when an operand is
    NaN. *)
Definition fle (x y : float) : bool := SFleb x y.
Definition fgt (x y : float) : bool := SFltb y x.

(** [0] and [0.0] *)
Definition fzero : float := S754_zero false.

(** A float as Python has them: the mantissa has the number of digits that
    the exponent asks for. *)
Definition float_valido (x : float) : bool := valid_binary 53 1024 x.

(** A finite number: neither NaN nor an infinity. *)
Definition finito (x : float) : bool :=
  match x with
  | S754_zero _ | S754_finite _ _ _ => true
  | S754_infinity _ | S754_nan => false
  end.

(** A balance in good standing: a valid float that is not below zero (and
    so is not NaN). *)
Definition saldo_bom (s : float) : bool := float_valido s && fle fzero s.

Record date : Type := mk_date { ano : Z; mes : Z; dia : Z }.

#[global] Instance date_eq_dec : EqDecision date.
Proof. solve_decision. Defined.

Record datetime : Type := mk_datetime {
  dt_data : date;
  dt_hora : Z;
  dt_minuto : Z;
  dt_segundo : Z;
  dt_microssegundo : Z
}.

(** ** Exceptions and effects *)

Inductive excecao : Type := ValueError (msg : string).

Inductive resultado (A : Type) : Type :=
  | Retorna (a : A)
  | Levanta (e : excecao).
Arguments Retorna {A} a.
Arguments Levanta {A} e.

(** A computation over a mutable object of type [S]: the object as it is
    left, and a value or the exception raised. *)
Definition Efeito (S A : Type) : Type := S -> S * resultado A.

Definition retornar {S A : Type} (a : A) : Efeito S A := fun s => (s, Retorna a).

Definition ligar {S A B : Type} (m : Efeito S A) (k : A -> Efeito S B) : Efeito S B :=
  fun s =>
    match m s with
    | (s', Retorna a) => k a s'
    | (s', Levanta e) => (s', Levanta e)
    end.

Definition ler {S : Type} : Efeito S S := fun s => (s, Retorna s).

Definition modificar {S : Type} (f : S -> S) : Efeito S unit := fun s => (f s, Retorna tt).

(** A pure call that may raise, made from inside an effectful function. *)
Definition elevar {S A : Type} (r : resultado A) : Efeito S A := fun s => (s, r).

Declare Scope efeito_scope.
Delimit Scope efeito_scope with efeito.
Notation "x <- m ;; k" := (ligar m (fun x => k))
  (at level 20, m at level 99, k at level 200, only parsing) : efeito_scope.
Notation "' p <- m ;; k" := (ligar m (fun x => let 'p := x in k))
  (at level 20, p pattern, m at level 99, k at level 200, only parsing) : efeito_scope.
Notation "m ;; k" := (ligar m (fun _ => k))
  (at level 100, k at level 200, right associativity, only parsing) : efeito_scope.

(** ** Data model *)

Record Usuario : Type := mk_Usuario {
  nome : string;
  data_nascimento : date;
  cpf : string;
  endereco : string
}.

Record Conta : Type := mk_Conta {
  agencia : string;
  numero : Z;
  cpf_titular : string;
  saldo : float;
  extrato : list string;
  numero_saques_hoje : Z;
  data_referencia_saques : option date
}.

(** [Conta(agencia=a, numero=n, cpf_titular=t)]: the remaining fields take
    the defaults of the dataclass. *)
Definition Conta_init (a : string) (n : Z) (t : string) : Conta :=
  mk_Conta a n t fzero [] 0 None.

(** Attribute assignments [conta.campo = v]. *)
Definition com_saldo (v : float) (c : Conta) : Conta :=
  mk_Conta (agencia c) (numero c) (cpf_titular c) v (extrato c)
           (numero_saques_hoje c) (data_referencia_saques c).

Definition com_extrato (v : list string) (c : Conta) : Conta :=
  mk_Conta (agencia c) (numero c) (cpf_titular c) (saldo c) v
           (numero_saques_hoje c) (data_referencia_saques c).

Definition com_numero_saques_hoje (v : Z) (c : Conta) : Conta :=
  mk_Conta (agencia c) (numero c) (cpf_titular c) (saldo c) (extrato c)
           v (data_referencia_saques c).

Definition com_data_referencia_saques (v : option date) (c : Conta) : Conta :=
  mk_Conta (agencia c) (numero c) (cpf_titular c) (saldo c) (extrato c)
           (numero_saques_hoje c) v.

(** ** Messages of the exceptions, in the order of the source *)

Definition msg_cpf_invalido : string :=
  "CPF inv" +:+ codigo 225 +:+ "lido: informe ao menos um d" +:+ codigo 237 +:+ "gito.".
Definition msg_cpf_duplicado : string :=
  "J" +:+ codigo 225 +:+ " existe usu" +:+ codigo 225 +:+ "rio com este CPF.".
Definition msg_data_invalida : string :=
  "Data de nascimento inv" +:+ codigo 225 +:+ "lida. Use o formato DD/MM/AAAA.".
Definition msg_usuario_nao_encontrado : string :=
  "Usu" +:+ codigo 225 +:+ "rio n" +:+ codigo 227 +:+ "o encontrado para o CPF informado.".
Definition msg_deposito_positivo : string :=
  "Valor de dep" +:+ codigo 243 +:+ "sito deve ser positivo.".
Definition msg_saque_positivo : string := "Valor de saque deve ser positivo.".
Definition msg_saldo_insuficiente : string := "Saldo insuficiente para saque.".
Definition msg_excede_limite : string := "Valor excede o limite por saque.".
Definition msg_limite_saques : string :=
  "Limite de saques do per" +:+ codigo 237 +:+ "odo atingido.".
Definition msg_max_vazio : string := "max() arg is an empty sequence".

(** The error kinds of the specification.  The program raises
    [ValueError] everywhere and tells the failures apart by their
    message; [error_kind] reads the kind off the message. *)
Inductive ErrorKind : Type :=
  | ValidationError
  | DuplicateError
  | NotFoundError
  | InsufficientFundsError
  | LimitExceededError.

Definition error_kind (e : excecao) : option ErrorKind :=
  let 'ValueError msg := e in
  if String.eqb msg msg_cpf_invalido then Some ValidationError
  else if String.eqb msg msg_data_invalida then Some ValidationError
  else if String.eqb msg msg_deposito_positivo then Some ValidationError
  else if String.eqb msg msg_saque_positivo then Some ValidationError
  else if String.eqb msg msg_cpf_duplicado then Some DuplicateError
  else if String.eqb msg msg_usuario_nao_encontrado then Some NotFoundError
  else if String.eqb msg msg_saldo_insuficiente then Some InsufficientFundsError
  else if String.eqb msg msg_excede_limite then Some LimitExceededError
  else if String.eqb msg msg_limite_saques then Some LimitExceededError
  else None.

(** ** The Python runtime

    Formatting and parsing that the program leaves to Python.
    - [formato_milhar_2f valor] is [f"{valor:,.2f}"];
    - [formato_data_hora agora] is [f"{agora:%d/%m/%Y %H:%M}"];
    - [strptime_dmY s] is [datetime.strptime(s, "%d/%m/%Y")], [None] when
      it raises [ValueError].
    The program and its properties are stated for any such functions;
    [runtime_py] below is the instance used by the examples. *)

Class Runtime : Type := {
  formato_milhar_2f : float -> string;
  formato_data_hora : datetime -> string;
  strptime_dmY : string -> option datetime
}.

Definition decimal (n : Z) : string :=
  DecimalString.NilZero.string_of_uint (N.to_uint (Z.to_N n)).

Fixpoint inverter (s acc : string) : string :=
  match s with
  | EmptyString => acc
  | String ch s' => inverter s' (String ch acc)
  end.

(** Zero padding on the left up to [largura] characters. *)
Definition preencher (largura : nat) (s : string) : string :=
  String.concat "" (repeat "0" (largura - String.length s)%nat) +:+ s.

(** A comma after every third digit of a reversed digit string. *)
Fixpoint milhares (k : nat) (invertido : string) : string :=
  match invertido with
  | EmptyString => EmptyString
  | String d resto =>
      match k with
      | 3%nat => String "," (String d (milhares 1 resto))
      | _ => String d (milhares (S k) resto)
      end
  end.

(** The hundredths nearest to [m * 2^e], ties to even. *)
Definition centesimos (m : positive) (e : Z) : Z :=
  let q := Z.pos m * 100 in
  if 0 <=? e then q * 2 ^ e
  else
    let d := 2 ^ (- e) in
    let n := q / d in
    match (2 * (q mod d)) ?= d with
    | Lt => n
    | Gt => n + 1
    | Eq => if Z.even n then n else n + 1
    end.

Definition ponto_fixo (negativo : bool) (n : Z) : string :=
  (if negativo then "-" else "")
  +:+ inverter (milhares 0 (inverter (decimal (n / 100)) "")) ""
  +:+ "." +:+ preencher 2 (decimal (n mod 100)).

(** [f"{valor:,.2f}"] *)
Definition formato_milhar_2f_py (valor : float) : string :=
  match valor with
  | S754_nan => "nan"
  | S754_infinity s => if s then "-inf" else "inf"
  | S754_zero s => ponto_fixo s 0
  | S754_finite s m e => ponto_fixo s (centesimos m e)
  end.

(** [f"{agora:%d/%m/%Y %H:%M}"], for years of four digits. *)
Definition formato_data_hora_py (agora : datetime) : string :=
  let d := dt_data agora in
  preencher 2 (decimal (dia d)) +:+ "/" +:+ preencher 2 (decimal (mes d)) +:+ "/"
  +:+ preencher 4 (decimal (ano d)) +:+ " "
  +:+ preencher 2 (decimal (dt_hora agora)) +:+ ":"
  +:+ preencher 2 (decimal (dt_minuto agora)).

Definition algarismo (ch : ascii) : option Z :=
  let n := N_of_ascii ch in
  if ((48 <=? n) && (n <=? 57))%N then Some (Z.of_N n - 48) else None.

Definition bissexto (a : Z) : bool :=
  (a mod 4 =? 0) && (negb (a mod 100 =? 0) || (a mod 400 =? 0)).

Definition dias_do_mes (a m : Z) : Z :=
  if m =? 2 then (if bissexto a then 29 else 28)
  else if (m =? 4) || (m =? 6) || (m =? 9) || (m =? 11) then 30
  else 31.

(** A date written with two digits, two digits and four digits.  Python's
    [strptime] also reads days and months of one digit. *)
Definition strptime_dmY_py (s : string) : option datetime :=
  match s with
  | String d1 (String d2 (String "/" (String m1 (String m2 (String "/"
      (String a1 (String a2 (String a3 (String a4 EmptyString))))))))) =>
      match algarismo d1, algarismo d2, algarismo m1, algarismo m2,
            algarismo a1, algarismo a2, algarismo a3, algarismo a4 with
      | Some d1, Some d2, Some m1, Some m2, Some a1, Some a2, Some a3, Some a4 =>
          let d := 10 * d1 + d2 in
          let m := 10 * m1 + m2 in
          let a := 1000 * a1 + 100 * a2 + 10 * a3 + a4 in
          if (1 <=? a) && (1 <=? m) && (m <=? 12) && (1 <=? d) && (d <=? dias_do_mes a m)
          then Some (mk_datetime (mk_date a m d) 0 0 0 0)
          else None
      | _, _, _, _, _, _, _, _ => None
      end
  | _ => None
  end.

Definition runtime_py : Runtime := {|
  formato_milhar_2f := formato_milhar_2f_py;
  formato_data_hora := formato_data_hora_py;
  strptime_dmY := strptime_dmY_py
|}.

(** The float nearest to the integer [n] (exact for the small integers of
    the examples). *)
Definition float_de_inteiro (n : Z) : float := binary_normalize 53 1024 n 0 false.

(** ** The program *)

Section Programa.

Context {rt : Runtime}.

(** *** Utilidades *)

(** [datetime.now().date()], for the reading [agora] of the clock. *)
Definition _hoje (agora : datetime) : date := dt_data agora.

Definition formatar_moeda (valor : float) : string :=
  replace "X" "." (replace "." "," (replace "," "X" ("R$ " +:+ formato_milhar_2f valor))).

Definition somente_digitos (texto : string) : string :=
  filtrar_texto isdigit texto.

(** *** Cadastro de usuarios e contas *)

Definition filtrar_usuario_por_cpf (cpf : string) (usuarios : gmap string Usuario)
  : option Usuario :=
  let cpf_num := somente_digitos cpf in
  usuarios !! cpf_num.

Definition criar_usuario (nome data_nascimento_str cpf endereco : string)
  : Efeito (gmap string Usuario) Usuario :=
  (let cpf_num := somente_digitos cpf in
   usuarios <- ler ;;
   if String.eqb cpf_num "" then
     elevar (Levanta (ValueError msg_cpf_invalido))
   else if bool_decide (is_Some (usuarios !! cpf_num)) then
     elevar (Levanta (ValueError msg_cpf_duplicado))
   else
     match strptime_dmY data_nascimento_str with
     | None => elevar (Levanta (ValueError msg_data_invalida))
     | Some lido =>
         let dn := dt_data lido in
         let usuario := mk_Usuario (strip nome) dn cpf_num (strip endereco) in
         modificar (insert cpf_num usuario) ;;
         retornar usuario
     end)%efeito.

(** [contas.keys()] *)
Definition chaves (contas : gmap Z Conta) : list Z := (map_to_list contas).*1.

(** [max(xs)] on integers. *)
Definition py_max (xs : list Z) : resultado Z :=
  match xs with
  | [] => Levanta (ValueError msg_max_vazio)
  | x :: xs' => Retorna (foldl Z.max x xs')
  end.

(** [1 if not contas else (max(contas.keys()) + 1)] *)
Definition proximo_numero (contas : gmap Z Conta) : resultado Z :=
  if bool_decide (contas = ∅) then Retorna 1
  else match py_max (chaves contas) with
       | Retorna maior => Retorna (maior + 1)
       | Levanta e => Levanta e
       end.

Definition criar_conta (cpf_titular : string) (usuarios : gmap string Usuario)
  : Efeito (gmap Z Conta) Conta :=
  (let cpf_num := somente_digitos cpf_titular in
   if negb (bool_decide (is_Some (usuarios !! cpf_num))) then
     elevar (Levanta (ValueError msg_usuario_nao_encontrado))
   else
     contas <- ler ;;
     numero_novo <- elevar (proximo_numero contas) ;;
     let conta := Conta_init "0001" numero_novo cpf_num in
     modificar (insert numero_novo conta) ;;
     retornar conta)%efeito.

(** *** Operacoes bancarias *)

Definition linha_deposito (agora : datetime) (valor saldo : float) : string :=
  formato_data_hora agora +:+ " | DEP" +:+ codigo 211 +:+ "SITO   | +"
  +:+ formatar_moeda valor +:+ " | Saldo: " +:+ formatar_moeda saldo.

Definition deposito (agora : datetime) (saldo valor : float) (extrato : list string)
  : resultado (float * list string) :=
  if fle valor fzero then
    Levanta (ValueError msg_deposito_positivo)
  else
    let saldo := fadd saldo valor in
    let extrato := (extrato ++ [linha_deposito agora valor saldo])%list in
    Retorna (saldo, extrato).

Definition _resetar_contagem_saques_se_novo_dia (relogio : datetime)
  : Efeito Conta unit :=
  (let hoje := _hoje relogio in
   conta <- ler ;;
   if bool_decide (data_referencia_saques conta ≠ Some hoje) then
     modificar (com_data_referencia_saques (Some hoje)) ;;
     modificar (com_numero_saques_hoje 0)
   else retornar tt)%efeito.

Definition linha_saque (agora : datetime) (valor saldo : float) : string :=
  formato_data_hora agora +:+ " | SAQUE      | -"
  +:+ formatar_moeda valor +:+ " | Saldo: " +:+ formatar_moeda saldo.

Definition saque (agora : datetime) (saldo valor : float) (extrato : list string)
    (limite : float) (numero_saques limite_saques : Z)
  : resultado (float * list string * Z) :=
  if fle valor fzero then
    Levanta (ValueError msg_saque_positivo)
  else if fgt valor saldo then
    Levanta (ValueError msg_saldo_insuficiente)
  else if fgt valor limite then
    Levanta (ValueError msg_excede_limite)
  else if numero_saques >=? limite_saques then
    Levanta (ValueError msg_limite_saques)
  else
    let saldo := fsub saldo valor in
    let numero_saques := numero_saques + 1 in
    let extrato := (extrato ++ [linha_saque agora valor saldo])%list in
    Retorna (saldo, extrato, numero_saques).

Definition cabecalho_extrato : string := nl +:+ "========== EXTRATO ==========".
Definition sem_movimentacoes : string :=
  "(Sem movimenta" +:+ codigo 231 +:+ codigo 245 +:+ "es)".
Definition linha_saldo_atual (saldo : float) : string :=
  "Saldo atual: " +:+ formatar_moeda saldo.
Definition rodape_extrato : string := "=============================" +:+ nl.

Definition exibir_extrato (saldo : float) (extrato : list string) : string :=
  let linhas := [cabecalho_extrato] in
  let linhas :=
    match extrato with
    | [] => (linhas ++ [sem_movimentacoes])%list
    | _ :: _ => (linhas ++ extrato)%list
    end in
  let linhas := (linhas ++ [linha_saldo_atual saldo])%list in
  let linhas := (linhas ++ [rodape_extrato])%list in
  join nl linhas.

(** *** Fachadas por conta *)

Definition depositar_na_conta (agora : datetime) (valor : float)
  : Efeito Conta unit :=
  (conta <- ler ;;
   ' (novo_saldo, novo_extrato) <-
     elevar (deposito agora (saldo conta) valor (extrato conta)) ;;
   modificar (com_saldo novo_saldo) ;;
   modificar (com_extrato novo_extrato))%efeito.

(** [relogio] is the reading of the clock taken by the new-day reset,
    [agora] the one taken for the log entry. *)
Definition sacar_da_conta (relogio agora : datetime) (valor limite_por_saque : float)
    (limite_saques_dia : Z) : Efeito Conta unit :=
  (_resetar_contagem_saques_se_novo_dia relogio ;;
   conta <- ler ;;
   ' (novo_saldo, novo_extrato, novo_num) <-
     elevar (saque agora (saldo conta) valor (extrato conta) limite_por_saque
                   (numero_saques_hoje conta) limite_saques_dia) ;;
   modificar (com_saldo novo_saldo) ;;
   modificar (com_extrato novo_extrato) ;;
   modificar (com_numero_saques_hoje novo_num))%efeito.

Definition extrato_da_conta : Efeito Conta string :=
  (conta <- ler ;;
   retornar (exibir_extrato (saldo conta) (extrato conta)))%efeito.

(** *** Sessions

    The loop of [main] calls the facades on the current account one after
    the other; an exception is caught and reported, and the account stays
    as the failed call left it. *)

Inductive operacao : Type :=
  | OpDeposito (agora : datetime) (valor : float)
  | OpSaque (relogio agora : datetime) (valor limite_por_saque : float)
            (limite_saques_dia : Z).

Definition executar (op : operacao) : Efeito Conta unit :=
  match op with
  | OpDeposito agora valor => depositar_na_conta agora valor
  | OpSaque relogio agora valor limite_por_saque limite_saques_dia =>
      sacar_da_conta relogio agora valor limite_por_saque limite_saques_dia
  end.

Definition aplicar (conta : Conta) (op : operacao) : Conta := fst (executar op conta).

Definition aplicar_todas (ops : list operacao) (conta : Conta) : Conta :=
  foldl aplicar conta ops.

(** The amount of the operation is a finite number. *)
Definition quantia_finita (op : operacao) : bool :=
  match op with
  | OpDeposito _ valor => float_valido valor && finito valor
  | OpSaque _ _ valor _ _ => float_valido valor && finito valor
  end.

(** A withdrawal request: the two readings of the clock, the amount and
    the limit per withdrawal. *)
Record pedido : Type := mk_pedido {
  p_relogio : datetime;
  p_agora : datetime;
  p_valor : float;
  p_limite : float
}.


(** The account as the new-day reset leaves it. *)
Definition conta_apos_reset (relogio : datetime) (conta : Conta) : Conta :=
  fst (_resetar_contagem_saques_se_novo_dia relogio conta).

End Programa.

(** ** Runs of registrations, of openings and of operations *)

Section Registros.
Context {rt : Runtime}.

(** *** Runs of registrations and of openings *)

(** The four texts of a registration. *)
Record cadastro : Type := mk_cadastro {
  cad_nome : string;
  cad_data : string;
  cad_cpf : string;
  cad_endereco : string
}.

(** The registry after one registration attempt, accepted or refused. *)
Definition cadastrar (usuarios : gmap string Usuario) (p : cadastro)
  : gmap string Usuario :=
  fst (criar_usuario (cad_nome p) (cad_data p) (cad_cpf p) (cad_endereco p) usuarios).

Definition cadastrar_todos (ps : list cadastro) (usuarios : gmap string Usuario)
  : gmap string Usuario :=
  foldl cadastrar usuarios ps.

(** The accounts after one opening attempt, accepted or refused. *)
Definition abrir (usuarios : gmap string Usuario) (contas : gmap Z Conta)
    (cpf_titular : string) : gmap Z Conta :=
  fst (criar_conta cpf_titular usuarios contas).

Definition abrir_todas (cpfs : list string) (usuarios : gmap string Usuario)
    (contas : gmap Z Conta) : gmap Z Conta :=
  foldl (abrir usuarios) contas cpfs.

(** Every holder is stored under its own identifier, which has at least
    one character and only digits. *)
Definition registro_coerente (usuarios : gmap string Usuario) : Prop :=
  map_Forall (fun k u => k <> "" /\ todos isdigit k = true /\ cpf u = k) usuarios.

End Registros.

Section Movimentos.
Context {rt : Runtime}.

(** *** What a session does to one account *)

(** The operation is accepted by the account. *)
Definition aceita (op : operacao) (conta : Conta) : bool :=
  match snd (executar op conta) with
  | Retorna _ => true
  | Levanta _ => false
  end.

(** The number of operations of a session that are accepted. *)
Fixpoint aceitas (ops : list operacao) (conta : Conta) : nat :=
  match ops with
  | [] => 0
  | op :: resto =>
      ((if aceita op conta then 1 else 0) + aceitas resto (aplicar conta op))%nat
  end.

Definition e_saque (op : operacao) : bool :=
  match op with
  | OpSaque _ _ _ _ _ => true
  | OpDeposito _ _ => false
  end.

(** The number of withdrawals of a session that are accepted. *)
Fixpoint saques_aceitos (ops : list operacao) (conta : Conta) : nat :=
  match ops with
  | [] => 0
  | op :: resto =>
      ((if e_saque op && aceita op conta then 1 else 0)
       + saques_aceitos resto (aplicar conta op))%nat
  end.

(** Every withdrawal of the session is made under the daily limit
    [limite_dia]. *)
Definition sob_limite_diario (limite_dia : Z) (op : operacao) : Prop :=
  match op with
  | OpSaque _ _ _ _ l => l = limite_dia
  | OpDeposito _ _ => True
  end.

(** Every withdrawal of the session reads the date [hoje] from the clock. *)
Definition no_dia (hoje : date) (op : operacao) : Prop :=
  match op with
  | OpSaque relogio _ _ _ _ => _hoje relogio = hoje
  | OpDeposito _ _ => True
  end.

Definition trocar_separador (ch : ascii) : ascii :=
  if Ascii.eqb ch "," then "."%char
  else if Ascii.eqb ch "." then ","%char
  else ch.

Fixpoint mapear (f : ascii -> ascii) (s : string) : string :=
  match s with
  | EmptyString => EmptyString
  | String ch s' => String (f ch) (mapear f s')
  end.

Definition sem_x (s : string) : bool :=
  todos (fun ch => negb (Ascii.eqb ch "X")) s.

(** The account on a day [hoje] after [j] accepted withdrawals: its count
    is [j], within the daily limit, and its reference date is [hoje] when
    it has one. *)
Definition conta_do_dia (limite_dia : Z) (hoje : date) (c : Conta) (j : nat) : Prop :=
  numero_saques_hoje c = Z.of_nat j
  /\ Z.of_nat j <= Z.max 0 limite_dia
  /\ (data_referencia_saques c = Some hoje
      \/ (data_referencia_saques c = None /\ j = 0%nat)).

End Movimentos.

(** ** The listing and the interactive loop *)

(** [str.lower] on the code points below 256: the capital letters A-Z and
    the accented capitals U+00C0-U+00DE, except the multiplication sign. *)
Definition lower_char (ch : ascii) : ascii :=
  let n := N_of_ascii ch in
  if ((65 <=? n) && (n <=? 90) || (192 <=? n) && (n <=? 222) && negb (n =? 215))%N
  then ascii_of_N (n + 32) else ch.

Fixpoint lower (s : string) : string :=
  match s with
  | EmptyString => EmptyString
  | String ch s' => String (lower_char ch) (lower s')
  end.

(** [f"{n:06d}"] *)
Definition formato_06d (n : Z) : string :=
  if 0 <=? n then preencher 6 (decimal n)
  else "-" +:+ preencher 5 (decimal (- n)).

(** The order of the items of a dict of accounts by their keys. *)
Definition ordem_das_chaves (x y : Z * Conta) : Prop := x.1 <= y.1.

#[global] Instance ordem_das_chaves_dec (x y : Z * Conta) :
  Decision (ordem_das_chaves x y) := decide (x.1 <= y.1).

(** [float(s)] and [int(s)] on texts, [None] when they raise
    [ValueError]. *)
Class Leitor : Type := {
  py_float : string -> option float;
  py_int : string -> option Z
}.

Section Interface.
Context {rt : Runtime} {lei : Leitor}.

(** *** Listagem *)

(** [sorted(contas.items())]: the keys of a dict are distinct, so the
    pairs are ordered by their keys. *)
Definition itens_ordenados (contas : gmap Z Conta) : list (Z * Conta) :=
  merge_sort ordem_das_chaves (map_to_list contas).

Definition linha_conta (usuarios : gmap string Usuario) (c : Conta) : string :=
  let u := usuarios !! cpf_titular c in
  let nome_titular :=
    match u with
    | Some u => nome u
    | None => "(Desconhecido)"
    end in
  "Ag" +:+ codigo 234 +:+ "ncia: " +:+ agencia c +:+ " | Conta: "
  +:+ formato_06d (numero c) +:+ " | Titular: " +:+ nome_titular
  +:+ " (CPF " +:+ cpf_titular c +:+ ") | Saldo: " +:+ formatar_moeda (saldo c).

Definition cabecalho_contas : string := nl +:+ "======= CONTAS CADASTRADAS =======".
Definition rodape_contas : string := "===================================" +:+ nl.
Definition nenhuma_conta : string := nl +:+ "(Nenhuma conta cadastrada)" +:+ nl.

Definition listar_contas (contas : gmap Z Conta) (usuarios : gmap string Usuario)
  : string :=
  if bool_decide (contas = ∅) then nenhuma_conta
  else
    let linhas := [cabecalho_contas] in
    let linhas :=
      foldl (fun linhas '(n, c) => (linhas ++ [linha_conta usuarios c])%list)
            linhas (itens_ordenados contas) in
    let linhas := (linhas ++ [rodape_contas])%list in
    join nl linhas.

(** *** Interface *)

Definition MENU : string :=
  nl +:+ nl +:+ "========== MENU ==========" +:+ nl +:+ "[d] Depositar" +:+ nl
  +:+ "[s] Sacar" +:+ nl +:+ "[e] Extrato" +:+ nl +:+ "[nu] Novo usu" +:+ codigo 225
  +:+ "rio" +:+ nl +:+ "[nc] Nova conta" +:+ nl +:+ "[lc] Listar contas" +:+ nl
  +:+ "[ac] Acessar conta por n" +:+ codigo 250 +:+ "mero" +:+ nl +:+ "[q] Sair"
  +:+ nl +:+ "> ".

Definition txt_bem_vindo : string :=
  nl +:+ "Bem-vindo ao Sistema Banc" +:+ codigo 225 +:+ "rio 2.0! Ag" +:+ codigo 234
  +:+ "ncia fixa 0001." +:+ nl.
Definition txt_ate_logo : string := nl +:+ "Saindo... At" +:+ codigo 233 +:+ " logo!".
Definition txt_sem_conta_ativa : string :=
  nl +:+ "Nenhuma conta ativa. Use [ac] para acessar uma conta ou crie uma em [nc].".
Definition txt_valor_deposito : string := "Valor do dep" +:+ codigo 243 +:+ "sito: ".
Definition txt_deposito_ok : string :=
  "Dep" +:+ codigo 243 +:+ "sito realizado com sucesso.".
Definition txt_valor_saque : string := "Valor do saque: ".
Definition txt_saque_ok : string := "Saque realizado com sucesso.".
Definition txt_nome : string := "Nome completo: ".
Definition txt_data : string := "Data de nascimento (DD/MM/AAAA): ".
Definition txt_cpf : string :=
  "CPF (somente n" +:+ codigo 250 +:+ "meros ou com m" +:+ codigo 225 +:+ "scara): ".
Definition txt_endereco : string :=
  "Endere" +:+ codigo 231 +:+ "o (logradouro, nro, bairro, cidade/UF): ".
Definition txt_usuario_criado : string := "Usu" +:+ codigo 225 +:+ "rio criado: ".
Definition txt_cpf_titular : string := "CPF do titular: ".
Definition txt_conta_criada : string := "Conta criada: Ag" +:+ codigo 234 +:+ "ncia ".
Definition txt_nao_ha_contas : string :=
  nl +:+ "N" +:+ codigo 227 +:+ "o h" +:+ codigo 225 +:+ " contas. Crie uma com [nc].".
Definition txt_numero_conta : string :=
  "N" +:+ codigo 250 +:+ "mero da conta (apenas d" +:+ codigo 237 +:+ "gitos): ".
Definition txt_numero_invalido : string :=
  "N" +:+ codigo 250 +:+ "mero inv" +:+ codigo 225 +:+ "lido.".
Definition txt_conta_nao_encontrada : string :=
  "Conta n" +:+ codigo 227 +:+ "o encontrada.".
Definition txt_obrigado : string :=
  nl +:+ "Saindo... Obrigado por usar o Sistema Banc" +:+ codigo 225 +:+ "rio 2.0!".
Definition txt_opcao_invalida : string :=
  "Op" +:+ codigo 231 +:+ codigo 227 +:+ "o inv" +:+ codigo 225
  +:+ "lida. Tente novamente.".
Definition msg_valor_numerico : string :=
  "Valor num" +:+ codigo 233 +:+ "rico inv" +:+ codigo 225 +:+ "lido.".
Definition msg_eof : string := "EOF when reading a line".

(** The state of a run of [main]: the two registries, the account in use,
    the lines that are still to be typed, what was written so far, and
    the number of readings of the clock made so far.  An account is never
    removed from [contas] nor replaced there, so the account in use, which
    [main] holds as the object found by [contas.get], is held here as its
    key: what is done to it is done to the entry of [contas]. *)
Record Mundo : Type := mk_Mundo {
  m_usuarios : gmap string Usuario;
  m_contas : gmap Z Conta;
  m_conta_atual : option Z;
  m_entrada : list string;
  m_saida : list string;
  m_leituras : nat
}.

(** The exceptions that reach the handlers of [main]. *)
Inductive falha : Type :=
  | FalhaValor (e : excecao)
  | FalhaEOF.

(** [str(e)] *)
Definition texto_da_falha (f : falha) : string :=
  match f with
  | FalhaValor (ValueError msg) => msg
  | FalhaEOF => msg_eof
  end.

Inductive desfecho (A : Type) : Type :=
  | Feito (a : A)
  | Falhou (f : falha).
Arguments Feito {A} a.
Arguments Falhou {A} f.

Definition Sessao (A : Type) : Type := Mundo -> Mundo * desfecho A.

Definition feito {A : Type} (a : A) : Sessao A := fun m => (m, Feito a).

Definition falhar {A : Type} (f : falha) : Sessao A := fun m => (m, Falhou f).

Definition seguir {A B : Type} (s : Sessao A) (k : A -> Sessao B) : Sessao B :=
  fun m =>
    match s m with
    | (m', Feito a) => k a m'
    | (m', Falhou f) => (m', Falhou f)
    end.

Declare Scope sessao_scope.
Delimit Scope sessao_scope with sessao.
Notation "x <- s ;; k" := (seguir s (fun x => k))
  (at level 20, s at level 99, k at level 200, only parsing) : sessao_scope.
Notation "s ;; k" := (seguir s (fun _ => k))
  (at level 100, k at level 200, right associativity, only parsing) : sessao_scope.

Definition ver : Sessao Mundo := fun m => (m, Feito m).

(** [print(texto)] *)
Definition print (texto : string) : Sessao unit :=
  fun m =>
    (mk_Mundo (m_usuarios m) (m_contas m) (m_conta_atual m) (m_entrada m)
              (m_saida m ++ [texto +:+ nl]) (m_leituras m),
     Feito tt).

(** [input(msg)]: writes [msg] and reads a line; [EOFError] when no line
    is left. *)
Definition input (msg : string) : Sessao string :=
  fun m =>
    let saida := (m_saida m ++ [msg])%list in
    match m_entrada m with
    | [] =>
        (mk_Mundo (m_usuarios m) (m_contas m) (m_conta_atual m) [] saida
                  (m_leituras m),
         Falhou FalhaEOF)
    | linha :: resto =>
        (mk_Mundo (m_usuarios m) (m_contas m) (m_conta_atual m) resto saida
                  (m_leituras m),
         Feito linha)
    end.

Definition _input_float (msg : string) : Sessao float :=
  (linha <- input msg ;;
   let valor_str := strip (replace "," "." linha) in
   match py_float valor_str with
   | Some valor => feito valor
   | None => falhar (FalhaValor (ValueError msg_valor_numerico))
   end)%sessao.

Definition desfecho_de {A : Type} (r : resultado A) : desfecho A :=
  match r with
  | Retorna a => Feito a
  | Levanta e => Falhou (FalhaValor e)
  end.

(** A call on the registry of holders. *)
Definition nos_usuarios {A : Type} (f : Efeito (gmap string Usuario) A) : Sessao A :=
  fun m =>
    let '(usuarios, r) := f (m_usuarios m) in
    (mk_Mundo usuarios (m_contas m) (m_conta_atual m) (m_entrada m) (m_saida m)
              (m_leituras m),
     desfecho_de r).

(** A call on the registry of accounts. *)
Definition nas_contas {A : Type} (f : Efeito (gmap Z Conta) A) : Sessao A :=
  fun m =>
    let '(contas, r) := f (m_contas m) in
    (mk_Mundo (m_usuarios m) contas (m_conta_atual m) (m_entrada m) (m_saida m)
              (m_leituras m),
     desfecho_de r).

(** A call on the account stored under [k], which reads the clock
    [leituras r] times when its outcome is [r]. *)
Definition na_conta {A : Type} (k : Z) (c : Conta) (f : Efeito Conta A)
    (leituras : resultado A -> nat) : Sessao A :=
  fun m =>
    let '(c', r) := f c in
    (mk_Mundo (m_usuarios m) (<[k := c']> (m_contas m)) (m_conta_atual m)
              (m_entrada m) (m_saida m) (m_leituras m + leituras r),
     desfecho_de r).

(** The account in use and its key, [None] for [not conta_atual]. *)
Definition conta_em_uso (m : Mundo) : option (Z * Conta) :=
  match m_conta_atual m with
  | Some k =>
      match m_contas m !! k with
      | Some c => Some (k, c)
      | None => None
      end
  | None => None
  end.

Definition definir_conta_atual (v : option Z) : Sessao unit :=
  fun m =>
    (mk_Mundo (m_usuarios m) (m_contas m) v (m_entrada m) (m_saida m) (m_leituras m),
     Feito tt).

Definition limite_por_saque : float := S754_finite false 8796093022208000 (-44).
Definition limite_saques_dia : Z := 3.

Section Laco.

(** [tempo i] is what the clock shows at its reading number [i]. *)
Variable tempo : nat -> datetime.

(** The body of the inner [try] of the loop, for an option other than
    [q]. *)
Definition comando (opcao : string) : Sessao unit :=
  (m <- ver ;;
   if String.eqb opcao "d" then
     match conta_em_uso m with
     | None => print txt_sem_conta_ativa
     | Some (k, c) =>
         valor <- _input_float txt_valor_deposito ;;
         m <- ver ;;
         na_conta k c (depositar_na_conta (tempo (m_leituras m)) valor)
                  (fun r => match r with Retorna _ => 1%nat | Levanta _ => 0%nat end) ;;
         print txt_deposito_ok
     end
   else if String.eqb opcao "s" then
     match conta_em_uso m with
     | None => print txt_sem_conta_ativa
     | Some (k, c) =>
         valor <- _input_float txt_valor_saque ;;
         m <- ver ;;
         na_conta k c
           (sacar_da_conta (tempo (m_leituras m)) (tempo (S (m_leituras m))) valor
                           limite_por_saque limite_saques_dia)
           (fun r => match r with Retorna _ => 2%nat | Levanta _ => 1%nat end) ;;
         print txt_saque_ok
     end
   else if String.eqb opcao "e" then
     match conta_em_uso m with
     | None => print txt_sem_conta_ativa
     | Some (k, c) =>
         texto <- na_conta k c extrato_da_conta (fun _ => 0%nat) ;;
         print texto
     end
   else if String.eqb opcao "nu" then
     nome_lido <- input txt_nome ;;
     let nome_lido := strip nome_lido in
     data_nasc <- input txt_data ;;
     let data_nasc := strip data_nasc in
     cpf_lido <- input txt_cpf ;;
     let cpf_lido := strip cpf_lido in
     endereco_lido <- input txt_endereco ;;
     let endereco_lido := strip endereco_lido in
     usuario <- nos_usuarios (criar_usuario nome_lido data_nasc cpf_lido endereco_lido) ;;
     print (txt_usuario_criado +:+ nome usuario +:+ " (CPF " +:+ cpf usuario +:+ ")")
   else if String.eqb opcao "nc" then
     cpf_lido <- input txt_cpf_titular ;;
     let cpf_lido := strip cpf_lido in
     m <- ver ;;
     conta <- nas_contas (criar_conta cpf_lido (m_usuarios m)) ;;
     print (txt_conta_criada +:+ agencia conta +:+ " | Conta "
            +:+ formato_06d (numero conta) +:+ " | Titular CPF " +:+ cpf_titular conta)
   else if String.eqb opcao "lc" then
     print (listar_contas (m_contas m) (m_usuarios m))
   else if String.eqb opcao "ac" then
     if bool_decide (m_contas m = ∅) then print txt_nao_ha_contas
     else
       linha <- input txt_numero_conta ;;
       match py_int (strip linha) with
       | None => print txt_numero_invalido
       | Some numero_lido =>
           m <- ver ;;
           match m_contas m !! numero_lido with
           | Some c =>
               definir_conta_atual (Some numero_lido) ;;
               let u := m_usuarios m !! cpf_titular c in
               let nome_titular :=
                 match u with
                 | Some u => nome u
                 | None => cpf_titular c
                 end in
               print ("Conta " +:+ formato_06d (numero c) +:+ " acessada (Titular: "
                      +:+ nome_titular +:+ ").")
           | None =>
               definir_conta_atual None ;;
               print txt_conta_nao_encontrada
           end
       end
   else print txt_opcao_invalida)%sessao.

(** One turn of the loop; [true] when the loop goes on. *)
Definition volta (m : Mundo) : Mundo * bool :=
  match input MENU m with
  | (m, Falhou _) => (fst (print txt_ate_logo m), false)
  | (m, Feito linha) =>
      let opcao := lower (strip linha) in
      if String.eqb opcao "q" then (fst (print txt_obrigado m), false)
      else
        match comando opcao m with
        | (m, Feito _) => (m, true)
        | (m, Falhou f) => (fst (print ("Erro: " +:+ texto_da_falha f) m), true)
        end
  end.

(** The loop, for at most [voltas] turns; [true] when it has ended. *)
Fixpoint laco (voltas : nat) (m : Mundo) : Mundo * bool :=
  match voltas with
  | O => (m, false)
  | S voltas' =>
      match volta m with
      | (m', true) => laco voltas' m'
      | (m', false) => (m', true)
      end
  end.

Definition mundo_inicial (entrada : list string) : Mundo :=
  mk_Mundo ∅ ∅ None entrada [] 0.

(** [main()], when [entrada] are the lines typed until the end of the
    input. *)
Definition main (entrada : list string) : Mundo * bool :=
  laco (S (length entrada)) (fst (print txt_bem_vindo (mundo_inicial entrada))).

End Laco.

End Interface.

Section Execucao.
Context {rt : Runtime} {lei : Leitor}.

(** The amount of an operation. *)
Definition quantia (op : operacao) : float :=
  match op with
  | OpDeposito _ valor => valor
  | OpSaque _ _ valor _ _ => valor
  end.

(** The amount that [_input_float] makes of a line. *)
Definition valor_lido (linha : string) : option float :=
  py_float (strip (replace "," "." linha)).

(** The line, read as an amount, gives a finite number or no number. *)
Definition linha_finita (linha : string) : bool :=
  match valor_lido linha with
  | Some valor => float_valido valor && finito valor
  | None => true
  end.

(** Every account has a balance that is a number and is not below zero. *)
Definition saldos_bons (m : Mundo) : Prop :=
  forall k c, m_contas m !! k = Some c -> saldo_bom (saldo c) = true.

(** The computation only takes lines from the front of the input. *)
Definition so_le {A : Type} (s : Sessao A) : Prop :=
  forall m, suffix (m_entrada (fst (s m))) (m_entrada m).

(** What one turn of the loop may do to the registries and to the account
    in use: nothing, one deposit or withdrawal on the account in use, one
    registration attempt, one opening attempt, or a change of the account
    in use. *)
Inductive transicao (m m' : Mundo) : Prop :=
  | T_nada :
      m_usuarios m' = m_usuarios m -> m_contas m' = m_contas m ->
      m_conta_atual m' = m_conta_atual m -> transicao m m'
  | T_operacao (k : Z) (c : Conta) (op : operacao) :
      m_conta_atual m = Some k -> m_contas m !! k = Some c ->
      (match op with
       | OpDeposito _ _ => True
       | OpSaque _ _ _ limite limite_dia =>
           limite = limite_por_saque /\ limite_dia = limite_saques_dia
       end) ->
      (exists linha, linha ∈ m_entrada m /\ valor_lido linha = Some (quantia op)) ->
      m_usuarios m' = m_usuarios m ->
      m_contas m' = <[k := aplicar c op]> (m_contas m) ->
      m_conta_atual m' = m_conta_atual m -> transicao m m'
  | T_cadastro (p : cadastro) :
      m_usuarios m' = cadastrar (m_usuarios m) p -> m_contas m' = m_contas m ->
      m_conta_atual m' = m_conta_atual m -> transicao m m'
  | T_abertura (cpf_lido : string) :
      m_usuarios m' = m_usuarios m ->
      m_contas m' = abrir (m_usuarios m) (m_contas m) cpf_lido ->
      m_conta_atual m' = m_conta_atual m -> transicao m m'
  | T_acesso (v : option Z) :
      m_usuarios m' = m_usuarios m -> m_contas m' = m_contas m ->
      m_conta_atual m' = v ->
      (forall k, v = Some k -> is_Some (m_contas m !! k)) -> transicao m m'.

(** The registries of a run are in order: the holders are stored under
    their identifiers; every account is stored under its number, belongs
    to agency 0001 and to a registered holder, and has a count between 0
    and the daily limit; the numbers in use are 1 to the number of
    accounts; the account in use is one of them. *)
Definition mundo_coerente (m : Mundo) : Prop :=
  registro_coerente (m_usuarios m)
  /\ (forall k c, m_contas m !! k = Some c ->
        numero c = k /\ agencia c = "0001"
        /\ is_Some (m_usuarios m !! cpf_titular c)
        /\ 0 <= numero_saques_hoje c <= limite_saques_dia)
  /\ (forall k, is_Some (m_contas m !! k) <-> 1 <= k <= Z.of_nat (size (m_contas m)))
  /\ (forall k, m_conta_atual m = Some k -> is_Some (m_contas m !! k)).

(** What is never lost between two states of a run: a holder stays as
    registered; an account stays under its number, with its agency, number
    and holder, and its log only grows at the end. *)
Definition conserva (m m' : Mundo) : Prop :=
  (forall k u, m_usuarios m !! k = Some u -> m_usuarios m' !! k = Some u)
  /\ (forall j c, m_contas m !! j = Some c ->
        exists c' novas,
          m_contas m' !! j = Some c'
          /\ agencia c' = agencia c /\ numero c' = numero c
          /\ cpf_titular c' = cpf_titular c
          /\ extrato c' = (extrato c ++ novas)%list).

End Execucao.

(** ** Data of the examples *)

Definition relogio_dia_3 : datetime := mk_datetime (mk_date 2026 11 3) 16 40 12 0.
Definition relogio_dia_4 : datetime := mk_datetime (mk_date 2026 11 4) 9 5 30 0.

(** A new account, as [criar_conta] makes it. *)
Definition conta_nova : Conta := Conta_init "0001" 1 "52998224725".

(** An account with a balance of 1000.00 that made three withdrawals on
    3 November. *)
Definition conta_dia_3 : Conta :=
  mk_Conta "0001" 1 "52998224725" (float_de_inteiro 1000) [] 3
           (Some (mk_date 2026 11 3)).

(** An empty account that made three withdrawals on 3 November. *)
Definition conta_vazia_dia_3 : Conta :=
  mk_Conta "0001" 1 "52998224725" fzero [] 3 (Some (mk_date 2026 11 3)).

(** A request of 100.00 on 4 November, under a limit of 500.00. *)
Definition pedido_100 : pedido :=
  mk_pedido relogio_dia_4 relogio_dia_4 (float_de_inteiro 100) (float_de_inteiro 500).

Definition ana : Usuario :=
  mk_Usuario "Ana" (mk_date 2000 1 1) "52998224725" "Rua A, 1, Centro, Recife/PE".

Definition usuarios_ana : gmap string Usuario := {[ "52998224725" := ana ]}.






(** Readers for the examples: [int] on a run of ASCII digits; [float] on
    [nan] and on a run of ASCII digits with at most one point in it.  On
    every other text of the examples [int] and [float] raise
    [ValueError]. *)
Fixpoint valor_decimal (s : string) (acc : Z) : option Z :=
  match s with
  | EmptyString => Some acc
  | String ch s' =>
      match algarismo ch with
      | Some d => valor_decimal s' (10 * acc + d)
      | None => None
      end
  end.

Definition py_int_py (s : string) : option Z :=
  match s with
  | EmptyString => None
  | _ => valor_decimal s 0
  end.

Fixpoint partir_no_ponto (s : string) : string * option string :=
  match s with
  | EmptyString => (EmptyString, None)
  | String ch s' =>
      if Ascii.eqb ch "." then (EmptyString, Some s')
      else let '(a, b) := partir_no_ponto s' in (String ch a, b)
  end.

Definition py_float_py (s : string) : option float :=
  if String.eqb s "nan" then Some S754_nan
  else
    match partir_no_ponto s with
    | (a, None) => float_de_inteiro <$> py_int_py a
    | (a, Some b) =>
        match py_int_py (a +:+ b), py_int_py a with
        | Some n, Some _ =>
            Some (SFdiv 53 1024 (float_de_inteiro n)
                        (float_de_inteiro (10 ^ Z.of_nat (String.length b))))
        | _, _ => None
        end
    end.

Definition leitor_py : Leitor := {| py_float := py_float_py; py_int := py_int_py |}.

(** A clock that shows the morning of 4 November at every reading. *)
Definition tempo_dia_4 (i : nat) : datetime := relogio_dia_4.

Definition bia : Usuario := mk_Usuario "Bia" (mk_date 1999 3 2) "12345678900" "Rua B".

(** Three registration attempts: a new holder, the holder that is there
    already, and an identifier without digits. *)
Definition cadastros_exemplo : list cadastro :=
  [mk_cadastro "Bia" "02/03/1999" "123.456.789-00" "Rua B";
   mk_cadastro "Ana" "01/01/2000" "529.982.247-25" "Rua A";
   mk_cadastro "Caio" "29/02/2024" "sem cpf" "Rua C"].

(** A session of 3 November: a deposit of 1000.00, then five withdrawals
    of 100.00 under the limits 500.00 and 3. *)
Definition sessao_exemplo : list operacao :=
  OpDeposito relogio_dia_3 (float_de_inteiro 1000)
  :: replicate 5 (OpSaque relogio_dia_3 relogio_dia_3 (float_de_inteiro 100)
                          (float_de_inteiro 500) 3).

Definition duas_contas : gmap Z Conta :=
  {[ 1 := conta_nova; 2 := Conta_init "0001" 2 "52998224725" ]}.

(** A state of the loop: two accounts, the first one in use, and a deposit
    of 100.00 about to be typed. *)
Definition mundo_exemplo : Mundo :=
  mk_Mundo usuarios_ana duas_contas (Some 1) ["d"; "100"; "q"] [] 0.

(** The same state, when the account 7, which does not exist, is about to
    be asked for. *)
Definition mundo_acesso : Mundo :=
  mk_Mundo usuarios_ana duas_contas (Some 1) [" AC "; " 7 "; "q"] [] 0.

(** What is typed in a run: a registration, an opening, the access to the
    account, a deposit, two withdrawals, a text that is no amount, and the
    end. *)
Definition entrada_exemplo : list string :=
  ["nu"; " Ana "; "01/01/2000"; "529.982.247-25"; "Rua A"; "nc"; "52998224725";
   "ac"; "1"; "D"; "1000,50"; "s"; "500"; "s"; "600"; "s"; "abc"; "e"; "lc"; "q"].

(** ** Properties *)

Section Propriedades.

Context {rt : Runtime}.

(** *** Comparisons of floats *)

Lemma SFcompare_antisym (x y : float) :
  SFcompare y x = option_map CompOpp (SFcompare x y).
Proof.
  destruct x as [sx|sx| |sx mx ex], y as [sy|sy| |sy my ey]; simpl;
    try (destruct sx); try (destruct sy); try reflexivity; simpl.
  - rewrite (Z.compare_antisym ey ex).
    destruct (ey ?= ex); simpl; try reflexivity.
    f_equal. rewrite (Pos.compare_cont_antisym my mx Eq). simpl.
    now rewrite CompOpp_involutive.
  - rewrite (Z.compare_antisym ey ex).
    destruct (ey ?= ex); simpl; try reflexivity.
    f_equal. symmetry. apply (Pos.compare_cont_antisym mx my Eq).
Qed.

Lemma fgt_not_fle (x y : float) : fgt x y = true -> fle x y = false.
Proof.
  unfold fgt, fle, SFltb, SFleb. rewrite (SFcompare_antisym x y).
  destruct (SFcompare x y) as [[]|]; simpl; congruence.
Qed.

Lemma fle_not_fgt (x y : float) : fle x y = true -> fgt x y = false.
Proof.
  unfold fgt, fle, SFltb, SFleb. rewrite (SFcompare_antisym x y).
  destruct (SFcompare x y) as [[]|]; simpl; congruence.
Qed.

(** *** Rounding

    Sums and differences of floats are rounded by [binary_normalize].  Its
    result is again a valid float and has the sign of the exact result. *)

Lemma fexp_eq (e : Z) : fexp 53 1024 e = Z.max (e - 53) (-1074).
Proof. reflexivity. Qed.

Lemma digits2_pos_size (p : positive) : digits2_pos p = Pos.size p.
Proof. induction p as [p IH|p IH|]; simpl; congruence. Qed.

Lemma digits2_pos_log2 (p : positive) :
  Z.pos (digits2_pos p) = Z.log2 (Z.pos p) + 1.
Proof.
  rewrite digits2_pos_size. destruct p; simpl; try reflexivity;
    rewrite Pos2Z.inj_succ; lia.
Qed.

Lemma Zdigits2_pos (m : Z) : 0 < m -> Zdigits2 m = Z.log2 m + 1.
Proof. destruct m as [|p|p]; try lia. intros _. apply digits2_pos_log2. Qed.

Lemma Zdigits2_nonneg (m : Z) : 0 <= Zdigits2 m.
Proof. destruct m; simpl; lia. Qed.

(** Bounds of a positive integer by the number of its binary digits. *)
Lemma Zdigits2_bounds (m : Z) :
  0 < m -> 2 ^ (Zdigits2 m - 1) <= m < 2 ^ Zdigits2 m.
Proof.
  intros H. rewrite Zdigits2_pos by assumption.
  replace (Z.log2 m + 1 - 1) with (Z.log2 m) by lia.
  apply (Z.log2_spec m H).
Qed.

Lemma iter_pos_iter (A : Type) (f : A -> A) (n : positive) :
  forall x, SpecFloat.iter_pos f n x = Pos.iter f x n.
Proof.
  induction n as [n IH|n IH|]; intros x; simpl.
  - rewrite !IH. now rewrite <- !Pos.iter_swap.
  - now rewrite !IH.
  - reflexivity.
Qed.

Lemma shr_1_m (r : shr_record) : 0 <= shr_m r -> shr_m (shr_1 r) = Z.div2 (shr_m r).
Proof.
  destruct r as [m rb sb]. simpl. intros H.
  destruct m as [|[p|p|]|p]; try lia; reflexivity.
Qed.

Lemma shr_m_iter (n : positive) (r : shr_record) :
  0 <= shr_m r ->
  shr_m (SpecFloat.iter_pos shr_1 n r) = Z.shiftr (shr_m r) (Z.pos n).
Proof.
  intros H. rewrite iter_pos_iter.
  change (Z.shiftr (shr_m r) (Z.pos n)) with (Pos.iter Z.div2 (shr_m r) n).
  induction n as [|n IH] using Pos.peano_ind.
  - simpl. now apply shr_1_m.
  - rewrite !Pos.iter_succ, <- IH. apply shr_1_m.
    rewrite IH. change (Pos.iter Z.div2 (shr_m r) n) with (Z.shiftr (shr_m r) (Z.pos n)).
    apply Z.shiftr_nonneg. assumption.
Qed.

Lemma shr_record_of_loc_m (m : Z) (l : location) : shr_m (shr_record_of_loc m l) = m.
Proof. destruct l as [|[]]; reflexivity. Qed.

(** [shr_fexp] shifts the mantissa right by the distance to the exponent
    that its number of digits asks for. *)
Lemma shr_fexp_spec (m e : Z) (l : location) :
  0 <= m ->
  let n := Z.max 0 (fexp 53 1024 (Zdigits2 m + e) - e) in
  shr_m (fst (shr_fexp 53 1024 m e l)) = Z.shiftr m n
  /\ snd (shr_fexp 53 1024 m e l) = e + n.
Proof.
  intros H. cbv zeta. unfold shr_fexp, shr.
  destruct (fexp 53 1024 (Zdigits2 m + e) - e) as [|p|p] eqn:E; simpl fst; simpl snd.
  - rewrite shr_record_of_loc_m, Z.shiftr_0_r. split; [reflexivity | lia].
  - rewrite shr_m_iter by now rewrite shr_record_of_loc_m.
    rewrite shr_record_of_loc_m. rewrite Z.max_r by lia. split; reflexivity.
  - rewrite shr_record_of_loc_m. rewrite Z.max_l by lia.
    rewrite Z.shiftr_0_r. split; [reflexivity | lia].
Qed.

Lemma round_nearest_even_cases (m : Z) (l : location) :
  round_nearest_even m l = m \/ round_nearest_even m l = m + 1.
Proof.
  destruct l as [|[]]; simpl; auto. destruct (Z.even m); auto.
Qed.

(** The number of digits after a shift to the right. *)
Lemma Zdigits2_shiftr (m n : Z) :
  0 <= m -> 0 <= n -> Zdigits2 (Z.shiftr m n) = Z.max 0 (Zdigits2 m - n).
Proof.
  intros Hm Hn. destruct (Z.eq_dec m 0) as [->|Hm0].
  { rewrite Z.shiftr_0_l. simpl. lia. }
  assert (0 < m) as Hpos by lia.
  pose proof (Z.shiftr_nonneg m n) as Hs.
  destruct (Z.eq_dec (Z.shiftr m n) 0) as [E|E].
  - rewrite E. simpl. apply Z.shiftr_eq_0_iff in E as [E|[_ E]]; [lia|].
    rewrite Zdigits2_pos by assumption. lia.
  - assert (0 < Z.shiftr m n) by lia.
    rewrite !Zdigits2_pos by assumption.
    rewrite Z.log2_shiftr by assumption.
    assert (~ Z.log2 m < n).
    { intros Hlt. apply E. apply Z.shiftr_eq_0_iff. right. lia. }
    lia.
Qed.

(** Adding one adds at most one digit, and then gives a power of two. *)
Lemma Zdigits2_succ (m : Z) :
  0 <= m ->
  Zdigits2 (m + 1) = Zdigits2 m
  \/ (Zdigits2 (m + 1) = Zdigits2 m + 1 /\ m + 1 = 2 ^ Zdigits2 m).
Proof.
  intros Hm. destruct (Z.eq_dec m 0) as [->|Hm0]; [right; split; reflexivity|].
  assert (0 < m) as Hpos by lia.
  rewrite !Zdigits2_pos by lia.
  destruct (Z.log2_succ_or m) as [Hs|Hs]; unfold Z.succ in Hs.
  - right. split; [lia|].
    pose proof (proj1 (Z.log2_eq_succ_iff_pow2 m Hpos) Hs) as [b Hb].
    unfold Z.succ in Hb. rewrite Hb.
    assert (0 <= b).
    { destruct (Z.le_gt_cases 0 b); [assumption|].
      rewrite Z.pow_neg_r in Hb by assumption. lia. }
    f_equal. rewrite Hb, Z.log2_pow2 in Hs by assumption. lia.
  - left. lia.
Qed.

(** What [binary_round_aux] returns is a valid float of the sign asked
    for, never NaN, when the exponent given is not above the exponent that
    the number of digits asks for. *)
Lemma binary_round_aux_bom (sx : bool) (m e : Z) (l : location) :
  0 <= m -> e <= fexp 53 1024 (Zdigits2 m + e) ->
  let r := binary_round_aux 53 1024 sx m e l in
  valid_binary 53 1024 r = true
  /\ (r = S754_zero sx \/ r = S754_infinity sx
      \/ exists m' e', r = S754_finite sx m' e').
Proof.
  intros Hm He. cbv zeta. unfold binary_round_aux.
  pose proof (shr_fexp_spec m e l Hm) as [Hm1 He1]. cbv zeta in Hm1, He1.
  destruct (shr_fexp 53 1024 m e l) as [mrs' e']. simpl in Hm1, He1.
  set (m2 := round_nearest_even (shr_m mrs') (loc_of_shr_record mrs')).
  assert (Hm1' : 0 <= shr_m mrs')
    by (rewrite Hm1; apply Z.shiftr_nonneg; assumption).
  assert (Hm2 : m2 = shr_m mrs' \/ m2 = shr_m mrs' + 1)
    by apply round_nearest_even_cases.
  assert (Hm2' : 0 <= m2) by lia.
  pose proof (shr_fexp_spec m2 e' loc_Exact Hm2') as [Hm3 He3].
  cbv zeta in Hm3, He3.
  destruct (shr_fexp 53 1024 m2 e' loc_Exact) as [mrs'' e'']. simpl in Hm3, He3.
  assert (Hd1 : Zdigits2 (shr_m mrs')
                = Z.max 0 (Zdigits2 m - Z.max 0 (fexp 53 1024 (Zdigits2 m + e) - e))).
  { rewrite Hm1. apply Zdigits2_shiftr; lia. }
  assert (Hd2 : Zdigits2 m2 = Zdigits2 (shr_m mrs')
                \/ Zdigits2 m2 = Zdigits2 (shr_m mrs') + 1).
  { destruct Hm2 as [->| ->]; [now left|].
    destruct (Zdigits2_succ (shr_m mrs') Hm1') as [H|[H _]]; auto. }
  assert (Hd3 : Zdigits2 (shr_m mrs'')
                = Z.max 0 (Zdigits2 m2 - Z.max 0 (fexp 53 1024 (Zdigits2 m2 + e') - e'))).
  { rewrite Hm3. apply Zdigits2_shiftr; lia. }
  assert (Hm3' : 0 <= shr_m mrs'')
    by (rewrite Hm3; apply Z.shiftr_nonneg; assumption).
  destruct (shr_m mrs'') as [|p|p] eqn:E3; [|  |lia].
  - split; [reflexivity | now left].
  - change (1024 - 53) with 971.
    destruct (e'' <=? 971) eqn:Ee; [|split; [reflexivity | right; now left]].
    split; [|right; right; eauto].
    simpl. unfold bounded, canonical_mantissa.
    change (1024 - 53) with 971. rewrite Ee, andb_true_r.
    apply Z.eqb_eq.
    change (Z.pos (digits2_pos p)) with (Zdigits2 (Z.pos p)).
    rewrite fexp_eq in *. lia.
Qed.

Lemma pos_iter_xO (m d : positive) :
  Z.pos (Pos.iter xO m d) = Z.pos m * 2 ^ Z.pos d.
Proof.
  induction d as [|d IH] using Pos.peano_ind.
  - simpl. lia.
  - rewrite Pos.iter_succ, Pos2Z.inj_succ, Z.pow_succ_r by lia.
    rewrite Pos2Z.inj_xO, IH. lia.
Qed.

(** [shl_align] brings a mantissa to a lower exponent without changing
    the value. *)
Lemma shl_align_spec (m : positive) (e e' : Z) :
  e' <= e ->
  Z.pos (fst (shl_align m e e')) = Z.pos m * 2 ^ (e - e')
  /\ snd (shl_align m e e') = e'.
Proof.
  intros H. unfold shl_align.
  destruct (e' - e) as [|d|d] eqn:E; simpl; try lia.
  - replace (e - e') with 0 by lia. split; lia.
  - rewrite pos_iter_xO. replace (e - e') with (Z.pos d) by lia. split; reflexivity.
Qed.

Lemma shl_align_above (m : positive) (e e' : Z) :
  e <= e' -> shl_align m e e' = (m, e).
Proof.
  intros H. unfold shl_align. destruct (e' - e) eqn:E; try reflexivity. lia.
Qed.

Lemma Zdigits2_mul_pow2 (m : positive) (d : Z) :
  0 <= d -> Zdigits2 (Z.pos m * 2 ^ d) = Zdigits2 (Z.pos m) + d.
Proof.
  intros H. assert (0 < 2 ^ d) by (apply Z.pow_pos_nonneg; lia).
  rewrite !Zdigits2_pos by lia. rewrite Z.log2_mul_pow2 by lia. lia.
Qed.

Lemma binary_round_bom (sx : bool) (m : positive) (e : Z) :
  let r := binary_round 53 1024 sx m e in
  valid_binary 53 1024 r = true
  /\ (r = S754_zero sx \/ r = S754_infinity sx
      \/ exists m' e', r = S754_finite sx m' e').
Proof.
  cbv zeta. unfold binary_round.
  set (e' := fexp 53 1024 (Z.pos (digits2_pos m) + e)).
  destruct (Z.le_gt_cases e e') as [Hle|Hgt].
  - rewrite shl_align_above by assumption.
    apply binary_round_aux_bom; [lia | exact Hle].
  - destruct (shl_align_spec m e e') as [Hv Hs]; [lia|].
    destruct (shl_align m e e') as [mz ez]. simpl in Hv, Hs. subst ez.
    apply binary_round_aux_bom; [lia|].
    rewrite Hv, Zdigits2_mul_pow2 by lia.
    replace (Zdigits2 (Z.pos m) + (e - e') + e') with (Z.pos (digits2_pos m) + e)
      by (simpl; lia).
    fold e'. lia.
Qed.

Lemma binary_normalize_bom (m e : Z) :
  0 <= m ->
  let r := binary_normalize 53 1024 m e false in
  valid_binary 53 1024 r = true
  /\ (r = S754_zero false \/ r = S754_infinity false
      \/ exists m' e', r = S754_finite false m' e').
Proof.
  intros H. cbv zeta. destruct m as [|p|p]; simpl; [| |lia].
  - split; [reflexivity | now left].
  - apply binary_round_bom.
Qed.

Lemma saldo_bom_cases (s : float) :
  saldo_bom s = true ->
  (exists sx, s = S754_zero sx) \/ s = S754_infinity false
  \/ exists m e, s = S754_finite false m e /\ bounded 53 1024 m e = true.
Proof.
  unfold saldo_bom, float_valido, fle, fzero. intros H.
  apply andb_true_iff in H as [Hv Hs].
  destruct s as [sx|sx| |sx m e]; simpl in *; try discriminate.
  - left. eauto.
  - destruct sx; [discriminate | now (right; left)].
  - destruct sx; [discriminate|]. right. right. eauto.
Qed.

Lemma bom_saldo_bom (r : float) :
  valid_binary 53 1024 r = true ->
  (r = S754_zero false \/ r = S754_infinity false
   \/ exists m' e', r = S754_finite false m' e') ->
  saldo_bom r = true.
Proof.
  intros Hv H. unfold saldo_bom, float_valido. rewrite Hv. simpl.
  destruct H as [->|[->|(m & e & ->)]]; reflexivity.
Qed.

(** A positive finite number. *)
Lemma quantia_positiva (v : float) :
  float_valido v = true -> finito v = true -> fle v fzero = false ->
  exists m e, v = S754_finite false m e /\ bounded 53 1024 m e = true.
Proof.
  unfold float_valido, fle, fzero. intros Hv Hf Hp.
  destruct v as [sx|sx| |sx m e]; simpl in *; try discriminate.
  destruct sx; [discriminate|]. eauto.
Qed.

Lemma bounded_digits (m : positive) (e : Z) :
  bounded 53 1024 m e = true ->
  -1074 <= e /\ Zdigits2 (Z.pos m) <= 53
  /\ (-1074 < e -> Zdigits2 (Z.pos m) = 53).
Proof.
  unfold bounded, canonical_mantissa. intros H.
  apply andb_true_iff in H as [H _]. apply Z.eqb_eq in H.
  rewrite fexp_eq in H. simpl Zdigits2. lia.
Qed.

(** The order of two valid positive floats is the order of their aligned
    mantissas. *)
Lemma alinhados_em_ordem (ms mv : positive) (es ev : Z) :
  bounded 53 1024 ms es = true ->
  bounded 53 1024 mv ev = true ->
  SFltb (S754_finite false ms es) (S754_finite false mv ev) = false ->
  Z.pos (fst (shl_align mv ev (Z.min es ev)))
  <= Z.pos (fst (shl_align ms es (Z.min es ev))).
Proof.
  intros Hs Hv Hlt.
  destruct (shl_align_spec ms es (Z.min es ev)) as [-> _]; [lia|].
  destruct (shl_align_spec mv ev (Z.min es ev)) as [-> _]; [lia|].
  apply bounded_digits in Hs as (Hes & Hds & Hns).
  apply bounded_digits in Hv as (Hev & Hdv & Hnv).
  unfold SFltb in Hlt. simpl in Hlt.
  destruct (es ?= ev) eqn:E.
  - apply Z.compare_eq in E. subst ev. rewrite Z.min_id, Z.sub_diag.
    change (Pos.compare_cont Eq ms mv) with (Pos.compare ms mv) in Hlt.
    destruct (Pos.compare_spec ms mv); try discriminate; lia.
  - discriminate.
  - apply Z.compare_gt_iff in E. rewrite Z.min_r by lia.
    rewrite Z.sub_diag. change (2 ^ 0) with 1.
    pose proof (Zdigits2_bounds (Z.pos ms) ltac:(lia)) as [Hlo _].
    pose proof (Zdigits2_bounds (Z.pos mv) ltac:(lia)) as [_ Hhi].
    rewrite Hns in Hlo by lia. change (2 ^ (53 - 1)) with 4503599627370496 in Hlo.
    assert (Z.pos mv < 2 ^ 53).
    { eapply Z.lt_le_trans; [exact Hhi|]. apply Z.pow_le_mono_r; lia. }
    change (2 ^ 53) with 9007199254740992 in *.
    assert (2 ^ 1 <= 2 ^ (es - ev)) by (apply Z.pow_le_mono_r; lia).
    change (2 ^ 1) with 2 in *. nia.
Qed.

Lemma fadd_bom (s v : float) :
  saldo_bom s = true ->
  float_valido v = true -> finito v = true -> fle v fzero = false ->
  saldo_bom (fadd s v) = true.
Proof.
  intros Hs Hv Hf Hp.
  destruct (quantia_positiva v Hv Hf Hp) as (mv & ev & -> & Hbv).
  pose proof Hs as Hs'.
  apply saldo_bom_cases in Hs' as [[sx ->]|[->|(ms & es & -> & Hbs)]].
  - simpl. apply bom_saldo_bom; eauto.
  - exact Hs.
  - unfold fadd, SFadd. cbv zeta. simpl cond_Zopp.
    apply bom_saldo_bom; apply binary_normalize_bom; lia.
Qed.

Lemma fsub_bom (s v : float) :
  saldo_bom s = true ->
  float_valido v = true -> finito v = true -> fle v fzero = false ->
  fgt v s = false ->
  saldo_bom (fsub s v) = true.
Proof.
  intros Hs Hv Hf Hp Hle.
  destruct (quantia_positiva v Hv Hf Hp) as (mv & ev & -> & Hbv).
  pose proof Hs as Hs'.
  apply saldo_bom_cases in Hs' as [[sx ->]|[->|(ms & es & -> & Hbs)]].
  - discriminate.
  - exact Hs.
  - unfold fsub, SFsub. cbv zeta. simpl cond_Zopp.
    pose proof (alinhados_em_ordem ms mv es ev Hbs Hbv Hle).
    apply bom_saldo_bom; apply binary_normalize_bom; lia.
Qed.

Lemma geb_true (n m : Z) : m <= n -> (n >=? m) = true.
Proof. intros H. rewrite Z.geb_leb. now apply Z.leb_le. Qed.

Lemma geb_false (n m : Z) : n < m -> (n >=? m) = false.
Proof. intros H. rewrite Z.geb_leb. now apply Z.leb_gt. Qed.

(** *** The facades, unfolded *)

Lemma resetar_eq (relogio : datetime) (c : Conta) :
  _resetar_contagem_saques_se_novo_dia relogio c =
  (if bool_decide (data_referencia_saques c ≠ Some (_hoje relogio))
   then com_numero_saques_hoje 0
          (com_data_referencia_saques (Some (_hoje relogio)) c)
   else c,
   Retorna tt).
Proof.
  unfold _resetar_contagem_saques_se_novo_dia, ligar, ler. simpl.
  case_bool_decide; reflexivity.
Qed.

Lemma conta_apos_reset_eq (relogio : datetime) (c : Conta) :
  conta_apos_reset relogio c =
  if bool_decide (data_referencia_saques c ≠ Some (_hoje relogio))
  then com_numero_saques_hoje 0
         (com_data_referencia_saques (Some (_hoje relogio)) c)
  else c.
Proof. unfold conta_apos_reset. now rewrite resetar_eq. Qed.

Lemma conta_apos_reset_saldo relogio c :
  saldo (conta_apos_reset relogio c) = saldo c.
Proof. rewrite conta_apos_reset_eq. now case_bool_decide. Qed.

Lemma conta_apos_reset_extrato relogio c :
  extrato (conta_apos_reset relogio c) = extrato c.
Proof. rewrite conta_apos_reset_eq. now case_bool_decide. Qed.

Lemma conta_apos_reset_data relogio c :
  data_referencia_saques (conta_apos_reset relogio c) = Some (_hoje relogio).
Proof.
  rewrite conta_apos_reset_eq. case_bool_decide as H; simpl; [reflexivity|].
  destruct (decide (data_referencia_saques c = Some (_hoje relogio))); tauto.
Qed.

Lemma conta_apos_reset_mesmo_dia relogio c :
  data_referencia_saques c = Some (_hoje relogio) ->
  conta_apos_reset relogio c = c.
Proof. intros H. rewrite conta_apos_reset_eq. now rewrite bool_decide_false by tauto. Qed.

Lemma conta_apos_reset_novo_dia relogio c :
  data_referencia_saques c ≠ Some (_hoje relogio) ->
  conta_apos_reset relogio c =
  com_numero_saques_hoje 0 (com_data_referencia_saques (Some (_hoje relogio)) c).
Proof. intros H. rewrite conta_apos_reset_eq. now rewrite bool_decide_true. Qed.

Lemma sacar_da_conta_eq relogio agora valor limite_por_saque limite_saques_dia c :
  sacar_da_conta relogio agora valor limite_por_saque limite_saques_dia c =
  let c0 := conta_apos_reset relogio c in
  match saque agora (saldo c0) valor (extrato c0) limite_por_saque
              (numero_saques_hoje c0) limite_saques_dia with
  | Retorna (novo_saldo, novo_extrato, novo_num) =>
      (com_numero_saques_hoje novo_num
         (com_extrato novo_extrato (com_saldo novo_saldo c0)), Retorna tt)
  | Levanta e => (c0, Levanta e)
  end.
Proof.
  unfold sacar_da_conta, conta_apos_reset, ligar at 1.
  destruct (_resetar_contagem_saques_se_novo_dia relogio c) as [c0 [[]|e]] eqn:R;
    [|rewrite resetar_eq in R; discriminate].
  simpl. unfold ligar, ler, elevar, modificar. simpl.
  destruct (saque _ _ _ _ _ _ _) as [[[s x] n]|e]; reflexivity.
Qed.

Lemma depositar_na_conta_eq agora valor c :
  depositar_na_conta agora valor c =
  match deposito agora (saldo c) valor (extrato c) with
  | Retorna (novo_saldo, novo_extrato) =>
      (com_extrato novo_extrato (com_saldo novo_saldo c), Retorna tt)
  | Levanta e => (c, Levanta e)
  end.
Proof.
  unfold depositar_na_conta, ligar, ler, elevar, modificar. simpl.
  destruct (deposito _ _ _ _) as [[s x]|e]; reflexivity.
Qed.

(** What [saque] answers, check by check. *)
Lemma saque_eq agora saldo valor extrato limite numero_saques limite_saques :
  saque agora saldo valor extrato limite numero_saques limite_saques =
  if fle valor fzero then Levanta (ValueError msg_saque_positivo)
  else if fgt valor saldo then Levanta (ValueError msg_saldo_insuficiente)
  else if fgt valor limite then Levanta (ValueError msg_excede_limite)
  else if numero_saques >=? limite_saques then Levanta (ValueError msg_limite_saques)
  else Retorna (fsub saldo valor,
                (extrato ++ [linha_saque agora valor (fsub saldo valor)])%list,
                numero_saques + 1).
Proof. reflexivity. Qed.

Lemma deposito_eq agora saldo valor extrato :
  deposito agora saldo valor extrato =
  if fle valor fzero then Levanta (ValueError msg_deposito_positivo)
  else Retorna (fadd saldo valor,
                (extrato ++ [linha_deposito agora valor (fadd saldo valor)])%list).
Proof. reflexivity. Qed.

(** The kind of each failure. *)
Lemma error_kinds :
  error_kind (ValueError msg_cpf_invalido) = Some ValidationError
  /\ error_kind (ValueError msg_cpf_duplicado) = Some DuplicateError
  /\ error_kind (ValueError msg_data_invalida) = Some ValidationError
  /\ error_kind (ValueError msg_usuario_nao_encontrado) = Some NotFoundError
  /\ error_kind (ValueError msg_deposito_positivo) = Some ValidationError
  /\ error_kind (ValueError msg_saque_positivo) = Some ValidationError
  /\ error_kind (ValueError msg_saldo_insuficiente) = Some InsufficientFundsError
  /\ error_kind (ValueError msg_excede_limite) = Some LimitExceededError
  /\ error_kind (ValueError msg_limite_saques) = Some LimitExceededError.
Proof. repeat split; vm_compute; reflexivity. Qed.

(** A withdrawal that fails leaves the account as the reset left it. *)
Lemma sacar_da_conta_falha relogio agora valor limite limite_dia c c' e :
  sacar_da_conta relogio agora valor limite limite_dia c = (c', Levanta e) ->
  c' = conta_apos_reset relogio c.
Proof.
  rewrite sacar_da_conta_eq. cbv zeta.
  destruct (saque _ _ _ _ _ _ _) as [[[s x] n]|e0]; congruence.
Qed.

(** *** Failures *)

(** C1, as amended.  A deposit or a withdrawal that fails leaves the
    balance and the log as they were.  A failed deposit leaves the whole
    account unchanged.  A failed withdrawal leaves the account as the
    new-day reset left it: unchanged when the reference date was already
    today's date, and otherwise with the counter at 0 and the reference
    date set to today.  A withdrawal of a positive amount above the
    balance fails with InsufficientFundsError. *)
Theorem C1_failure_keeps_balance_and_log :
  (forall agora valor c c' e,
      depositar_na_conta agora valor c = (c', Levanta e) -> c' = c)
  /\ (forall relogio agora valor limite limite_dia c c' e,
      sacar_da_conta relogio agora valor limite limite_dia c = (c', Levanta e) ->
      saldo c' = saldo c /\ extrato c' = extrato c
      /\ c' = conta_apos_reset relogio c
      /\ (data_referencia_saques c = Some (_hoje relogio) -> c' = c)
      /\ (data_referencia_saques c <> Some (_hoje relogio) ->
          numero_saques_hoje c' = 0
          /\ data_referencia_saques c' = Some (_hoje relogio)))
  /\ (forall relogio agora valor limite limite_dia c,
      fgt valor fzero = true -> fgt valor (saldo c) = true ->
      sacar_da_conta relogio agora valor limite limite_dia c
      = (conta_apos_reset relogio c, Levanta (ValueError msg_saldo_insuficiente))
      /\ error_kind (ValueError msg_saldo_insuficiente) = Some InsufficientFundsError).
Proof.
  split; [|split].
  - intros agora valor c c' e. rewrite depositar_na_conta_eq.
    destruct (deposito _ _ _ _) as [[s x]|e0]; congruence.
  - intros relogio agora valor limite limite_dia c c' e H.
    apply sacar_da_conta_falha in H. subst c'.
    rewrite conta_apos_reset_saldo, conta_apos_reset_extrato.
    repeat split; try reflexivity.
    + apply conta_apos_reset_mesmo_dia.
    + rewrite conta_apos_reset_novo_dia by assumption. reflexivity.
    + apply conta_apos_reset_data.
  - intros relogio agora valor limite limite_dia c Hpos Hsaldo.
    split; [|apply error_kinds].
    rewrite sacar_da_conta_eq. cbv zeta. rewrite saque_eq.
    rewrite (fgt_not_fle _ _ Hpos), conta_apos_reset_saldo, Hsaldo. reflexivity.
Qed.

(** C2.  The checks of a withdrawal are made in a fixed order: the amount
    is positive, the balance covers it, it is within the limit per
    withdrawal, the daily count is below the daily limit.  The error
    raised is that of the first check that fails in this order, whatever
    the later checks would say. *)
Theorem C2_validation_order relogio agora valor limite limite_dia c :
  let r := snd (sacar_da_conta relogio agora valor limite limite_dia c) in
  (fle valor fzero = true ->
   r = Levanta (ValueError msg_saque_positivo)
   /\ error_kind (ValueError msg_saque_positivo) = Some ValidationError)
  /\ (fle valor fzero = false -> fgt valor (saldo c) = true ->
      r = Levanta (ValueError msg_saldo_insuficiente)
      /\ error_kind (ValueError msg_saldo_insuficiente) = Some InsufficientFundsError)
  /\ (fle valor fzero = false -> fgt valor (saldo c) = false ->
      fgt valor limite = true ->
      r = Levanta (ValueError msg_excede_limite)
      /\ error_kind (ValueError msg_excede_limite) = Some LimitExceededError)
  /\ (fle valor fzero = false -> fgt valor (saldo c) = false ->
      fgt valor limite = false ->
      numero_saques_hoje (conta_apos_reset relogio c) >= limite_dia ->
      r = Levanta (ValueError msg_limite_saques)
      /\ error_kind (ValueError msg_limite_saques) = Some LimitExceededError).
Proof.
  cbv zeta. rewrite sacar_da_conta_eq. cbv zeta. rewrite saque_eq.
  rewrite conta_apos_reset_saldo.
  split; [|split; [|split]].
  - intros H1. split; [|apply error_kinds]. now rewrite H1.
  - intros H1 H2. split; [|apply error_kinds]. now rewrite H1, H2.
  - intros H1 H2 H3. split; [|apply error_kinds]. now rewrite H1, H2, H3.
  - intros H1 H2 H3 H4. split; [|apply error_kinds].
    rewrite H1, H2, H3, geb_true by lia. reflexivity.
Qed.

(** *** Successful operations *)


(** C3.  A withdrawal of a positive amount that the balance covers, within
    the limit per withdrawal, made while the daily count (after the
    new-day reset) is below the daily limit, succeeds: the balance
    decreases by the amount, the count increases by exactly 1, and exactly
    one entry is appended to the log, made of the time stamp, the word
    SAQUE, the amount and the resulting balance.  A second such call is a
    new operation: it changes the account again. *)
Theorem C3_withdrawal_success relogio agora valor limite limite_dia c :
  fgt valor fzero = true ->
  fle valor (saldo c) = true ->
  fle valor limite = true ->
  numero_saques_hoje (conta_apos_reset relogio c) < limite_dia ->
  exists c',
    sacar_da_conta relogio agora valor limite limite_dia c = (c', Retorna tt)
    /\ saldo c' = fsub (saldo c) valor
    /\ numero_saques_hoje c' = numero_saques_hoje (conta_apos_reset relogio c) + 1
    /\ extrato c' =
       (extrato c ++
        [formato_data_hora agora +:+ " | SAQUE      | -" +:+ formatar_moeda valor
         +:+ " | Saldo: " +:+ formatar_moeda (fsub (saldo c) valor)])%list
    /\ data_referencia_saques c' = Some (_hoje relogio)
    /\ agencia c' = agencia c /\ numero c' = numero c
    /\ cpf_titular c' = cpf_titular c
    /\ forall relogio2 agora2,
        _hoje relogio2 = _hoje relogio ->
        fle valor (saldo c') = true ->
        numero_saques_hoje c' < limite_dia ->
        exists c'',
          sacar_da_conta relogio2 agora2 valor limite limite_dia c' = (c'', Retorna tt)
          /\ c'' <> c'
          /\ saldo c'' = fsub (saldo c') valor
          /\ numero_saques_hoje c'' = numero_saques_hoje c' + 1
          /\ length (extrato c'') = S (length (extrato c')).
Proof.
  intros Hpos Hsaldo Hlim Hdia.
  pose proof (fgt_not_fle _ _ Hpos) as E1.
  pose proof (fle_not_fgt _ _ Hlim) as E3.
  eexists. split.
  - rewrite sacar_da_conta_eq. cbv zeta. rewrite saque_eq.
    rewrite E1, conta_apos_reset_saldo, (fle_not_fgt _ _ Hsaldo), E3.
    rewrite geb_false by lia.
    reflexivity.
  - simpl. rewrite conta_apos_reset_extrato, conta_apos_reset_data.
    do 4 (split; [reflexivity|]).
    do 3 (split; [rewrite conta_apos_reset_eq; now case_bool_decide|]).
    intros relogio2 agora2 Hdia2 Hsaldo2 Hcount2.
    set (c' := com_numero_saques_hoje _ _) in *.
    assert (Hc' : conta_apos_reset relogio2 c' = c').
    { apply conta_apos_reset_mesmo_dia. rewrite Hdia2. subst c'. simpl.
      apply conta_apos_reset_data. }
    eexists. split.
    + rewrite sacar_da_conta_eq. cbv zeta. rewrite saque_eq, Hc'.
      rewrite E1. subst c'. simpl. rewrite (fle_not_fgt _ _ Hsaldo2), E3.
      rewrite geb_false by lia. reflexivity.
    + simpl. repeat split.
      * intros Heq. apply (f_equal numero_saques_hoje) in Heq. simpl in Heq. lia.
      * rewrite !length_app. simpl. lia.
Qed.

(** C5.  A deposit of an amount that is zero or negative fails with
    ValidationError and leaves the account unchanged.  A deposit of a
    positive amount, however large, succeeds: the balance increases by the
    amount and exactly one entry is appended to the log, made of the time
    stamp, the word DEPOSITO, the amount and the new balance. *)
Theorem C5_deposit agora valor c :
  (fle valor fzero = true ->
   depositar_na_conta agora valor c = (c, Levanta (ValueError msg_deposito_positivo))
   /\ error_kind (ValueError msg_deposito_positivo) = Some ValidationError)
  /\ (fgt valor fzero = true ->
      exists c',
        depositar_na_conta agora valor c = (c', Retorna tt)
        /\ saldo c' = fadd (saldo c) valor
        /\ extrato c' =
           (extrato c ++
            [formato_data_hora agora +:+ " | DEP" +:+ codigo 211 +:+ "SITO   | +"
             +:+ formatar_moeda valor +:+ " | Saldo: "
             +:+ formatar_moeda (fadd (saldo c) valor)])%list
        /\ agencia c' = agencia c /\ numero c' = numero c
        /\ cpf_titular c' = cpf_titular c
        /\ numero_saques_hoje c' = numero_saques_hoje c
        /\ data_referencia_saques c' = data_referencia_saques c).
Proof.
  rewrite depositar_na_conta_eq, deposito_eq. split.
  - intros H. rewrite H. split; [reflexivity | apply error_kinds].
  - intros H. rewrite (fgt_not_fle _ _ H). eexists. split; [reflexivity|].
    simpl. repeat split.
Qed.

(** *** The daily count *)








(** *** The balance under amounts that are finite numbers *)

Lemma aplicar_saldo_bom (op : operacao) (c : Conta) :
  quantia_finita op = true ->
  saldo_bom (saldo c) = true ->
  saldo_bom (saldo (aplicar c op)) = true.
Proof.
  intros Hop Hs. unfold aplicar.
  destruct op as [agora valor|relogio agora valor limite limite_dia];
    simpl in *; apply andb_true_iff in Hop as [Hv Hf].
  - rewrite depositar_na_conta_eq, deposito_eq.
    destruct (fle valor fzero) eqn:E; simpl; [assumption|].
    now apply fadd_bom.
  - rewrite sacar_da_conta_eq. cbv zeta. rewrite saque_eq, conta_apos_reset_saldo.
    destruct (fle valor fzero) eqn:E1; simpl;
      [now rewrite conta_apos_reset_saldo|].
    destruct (fgt valor (saldo c)) eqn:E2; simpl;
      [now rewrite conta_apos_reset_saldo|].
    destruct (fgt valor limite) eqn:E3; simpl;
      [now rewrite conta_apos_reset_saldo|].
    destruct (_ >=? _); simpl; [now rewrite conta_apos_reset_saldo|].
    now apply fsub_bom.
Qed.

(** When every amount is a finite number, the balance of an account that
    was opened by [criar_conta] is a number and is not below zero after
    every deposit and every withdrawal, accepted or refused. *)
Lemma saldo_nao_negativo_com_quantias_finitas (ops : list operacao)
    (a : string) (n : Z) (t : string) :
  Forall (fun op => quantia_finita op = true) ops ->
  fle fzero (saldo (aplicar_todas ops (Conta_init a n t))) = true.
Proof.
  intros Hops.
  assert (H : forall c, saldo_bom (saldo c) = true ->
                        saldo_bom (saldo (aplicar_todas ops c)) = true).
  { unfold aplicar_todas. induction Hops as [|op ops Hop _ IH]; intros c Hc; simpl.
    - assumption.
    - apply IH, aplicar_saldo_bom; assumption. }
  specialize (H (Conta_init a n t) eq_refl).
  unfold saldo_bom in H. now apply andb_true_iff in H as [_ H].
Qed.

(** *** Account numbers *)

Lemma foldl_max_spec (xs : list Z) :
  forall x,
    (foldl Z.max x xs = x \/ foldl Z.max x xs ∈ xs)
    /\ x <= foldl Z.max x xs
    /\ Forall (fun y => y <= foldl Z.max x xs) xs.
Proof.
  induction xs as [|y ys IH]; intros x; simpl.
  - split; [now left|]. split; [lia | constructor].
  - destruct (IH (Z.max x y)) as (Hin & Hle & Hall).
    split; [|split].
    + destruct Hin as [Heq|Hin]; [|right; now apply list_elem_of_further].
      rewrite Heq. destruct (Z.max_spec x y) as [[_ ->]|[_ ->]];
        [right; apply list_elem_of_here | now left].
    + lia.
    + constructor; [lia | assumption].
Qed.

(** In a registry that is not empty, the next number is one more than the
    greatest key. *)
Lemma proximo_numero_spec (contas : gmap Z Conta) :
  contas <> ∅ ->
  exists maior,
    proximo_numero contas = Retorna (maior + 1)
    /\ is_Some (contas !! maior)
    /\ forall k, is_Some (contas !! k) -> k <= maior.
Proof.
  intros Hne. unfold proximo_numero, chaves.
  rewrite bool_decide_false by assumption.
  destruct (map_to_list contas) as [|[k v] l] eqn:E.
  { now apply map_to_list_empty_iff in E. }
  simpl. exists (foldl Z.max k l.*1). split; [reflexivity|].
  destruct (foldl_max_spec l.*1 k) as (Hin & Hle & Hall).
  assert (Hkeys : forall j, is_Some (contas !! j) <-> j = k \/ j ∈ l.*1).
  { intros j. split.
    - intros [x Hx]. apply elem_of_map_to_list in Hx. rewrite E in Hx.
      apply elem_of_cons in Hx as [[= -> ->]|Hx]; [now left|right].
      apply list_elem_of_fmap. now exists (j, x).
    - intros [->|Hj].
      + exists v. apply elem_of_map_to_list. rewrite E. apply list_elem_of_here.
      + apply list_elem_of_fmap in Hj as ([j' x] & -> & Hx). exists x.
        apply elem_of_map_to_list. rewrite E. now apply list_elem_of_further. }
  split.
  - apply Hkeys. destruct Hin as [->|Hin]; [now left | now right].
  - intros j Hj. apply Hkeys in Hj as [->|Hj]; [assumption|].
    rewrite Forall_forall in Hall. now apply Hall.
Qed.

Lemma proximo_numero_vazio : proximo_numero ∅ = Retorna 1.
Proof. reflexivity. Qed.

Lemma criar_conta_eq cpf_titular (usuarios : gmap string Usuario) (contas : gmap Z Conta) :
  is_Some (usuarios !! somente_digitos cpf_titular) ->
  criar_conta cpf_titular usuarios contas =
  match proximo_numero contas with
  | Retorna n =>
      (<[n := Conta_init "0001" n (somente_digitos cpf_titular)]> contas,
       Retorna (Conta_init "0001" n (somente_digitos cpf_titular)))
  | Levanta e => (contas, Levanta e)
  end.
Proof.
  intros H. unfold criar_conta. rewrite bool_decide_true by assumption. simpl.
  unfold ligar, ler, elevar. simpl.
  destruct (proximo_numero contas); reflexivity.
Qed.

(** The account opened in a registry that is not empty. *)
Lemma criar_conta_seguinte cpf_titular (usuarios : gmap string Usuario)
    (contas : gmap Z Conta) :
  is_Some (usuarios !! somente_digitos cpf_titular) ->
  contas <> ∅ ->
  exists maior,
    is_Some (contas !! maior)
    /\ (forall k, is_Some (contas !! k) -> k <= maior)
    /\ criar_conta cpf_titular usuarios contas
       = (<[maior + 1 := Conta_init "0001" (maior + 1) (somente_digitos cpf_titular)]> contas,
          Retorna (Conta_init "0001" (maior + 1) (somente_digitos cpf_titular))).
Proof.
  intros Hu Hne. destruct (proximo_numero_spec contas Hne) as (maior & Hp & Hin & Hmax).
  exists maior. repeat split; try assumption.
  rewrite criar_conta_eq, Hp by assumption. reflexivity.
Qed.

(** C7.  Account numbers are sequential.  [criar_conta] gives the number 1
    in an empty registry and otherwise one more than the greatest key, so
    that three accounts opened one after the other from an empty registry
    get the numbers 1, 2 and 3, whoever their holders are.  For an
    identifier that no holder has, it fails with NotFoundError and leaves
    the registry, and so the next number, as they were. *)
Theorem C7_sequential_account_numbers :
  (forall cpf (usuarios : gmap string Usuario),
      is_Some (usuarios !! somente_digitos cpf) ->
      criar_conta cpf usuarios ∅
      = ({[ 1 := Conta_init "0001" 1 (somente_digitos cpf) ]},
         Retorna (Conta_init "0001" 1 (somente_digitos cpf))))
  /\ (forall cpf (usuarios : gmap string Usuario) (contas : gmap Z Conta),
      is_Some (usuarios !! somente_digitos cpf) ->
      contas <> ∅ ->
      exists maior,
        is_Some (contas !! maior)
        /\ (forall k, is_Some (contas !! k) -> k <= maior)
        /\ criar_conta cpf usuarios contas
           = (<[maior + 1 := Conta_init "0001" (maior + 1) (somente_digitos cpf)]> contas,
              Retorna (Conta_init "0001" (maior + 1) (somente_digitos cpf))))
  /\ (forall cpf1 cpf2 cpf3 (us1 us2 us3 : gmap string Usuario),
      is_Some (us1 !! somente_digitos cpf1) ->
      is_Some (us2 !! somente_digitos cpf2) ->
      is_Some (us3 !! somente_digitos cpf3) ->
      exists c1 c2 c3 contas1 contas2 contas3,
        criar_conta cpf1 us1 ∅ = (contas1, Retorna c1)
        /\ criar_conta cpf2 us2 contas1 = (contas2, Retorna c2)
        /\ criar_conta cpf3 us3 contas2 = (contas3, Retorna c3)
        /\ numero c1 = 1 /\ numero c2 = 2 /\ numero c3 = 3
        /\ contas3 !! 1 = Some c1 /\ contas3 !! 2 = Some c2
        /\ contas3 !! 3 = Some c3)
  /\ (forall cpf (usuarios : gmap string Usuario) (contas : gmap Z Conta),
      usuarios !! somente_digitos cpf = None ->
      criar_conta cpf usuarios contas
      = (contas, Levanta (ValueError msg_usuario_nao_encontrado))
      /\ error_kind (ValueError msg_usuario_nao_encontrado) = Some NotFoundError
      /\ proximo_numero (fst (criar_conta cpf usuarios contas))
         = proximo_numero contas).
Proof.
  split; [|split; [|split]].
  - intros cpf usuarios Hu. now rewrite criar_conta_eq.
  - intros cpf usuarios contas. apply criar_conta_seguinte.
  - intros cpf1 cpf2 cpf3 us1 us2 us3 H1 H2 H3.
    set (c1 := Conta_init "0001" 1 (somente_digitos cpf1)).
    set (contas1 := ({[ 1 := c1 ]} : gmap Z Conta)).
    destruct (criar_conta_seguinte cpf2 us2 contas1 H2) as (m1 & Hin1 & Hmax1 & E2).
    { apply insert_non_empty. }
    assert (m1 = 1) as ->.
    { destruct Hin1 as [x Hx]. apply lookup_singleton_Some in Hx. symmetry. apply Hx. }
    simpl in E2.
    set (c2 := Conta_init "0001" 2 (somente_digitos cpf2)) in *.
    set (contas2 := (<[2 := c2]> contas1 : gmap Z Conta)) in *.
    destruct (criar_conta_seguinte cpf3 us3 contas2 H3) as (m2 & Hin2 & Hmax2 & E3).
    { apply insert_non_empty. }
    assert (m2 = 2) as ->.
    { assert (2 <= m2) by (apply Hmax2; exists c2; apply lookup_insert_eq).
      destruct Hin2 as [x Hx]. unfold contas2, contas1 in Hx.
      apply lookup_insert_Some in Hx as [[<- _]|[_ Hx]]; [reflexivity|].
      apply lookup_singleton_Some in Hx. lia. }
    simpl in E3.
    exists c1, c2, (Conta_init "0001" 3 (somente_digitos cpf3)), contas1, contas2,
      (<[3 := Conta_init "0001" 3 (somente_digitos cpf3)]> contas2).
    split; [now rewrite criar_conta_eq|].
    split; [exact E2|]. split; [exact E3|].
    do 3 (split; [reflexivity|]).
    unfold contas2, contas1. split; [|split].
    + rewrite !lookup_insert_ne by lia. apply lookup_singleton_eq.
    + rewrite lookup_insert_ne by lia. apply lookup_insert_eq.
    + apply lookup_insert_eq.
  - intros cpf usuarios contas Hu.
    assert (E : criar_conta cpf usuarios contas
                = (contas, Levanta (ValueError msg_usuario_nao_encontrado))).
    { unfold criar_conta. rewrite Hu.
      rewrite bool_decide_false by (intros [x Hx]; discriminate). reflexivity. }
    rewrite E. split; [reflexivity|]. split; [apply error_kinds | reflexivity].
Qed.

(** *** Registration of holders *)

Lemma somente_digitos_todos (texto : string) :
  todos isdigit (somente_digitos texto) = true.
Proof.
  unfold somente_digitos. induction texto as [|ch texto IH]; simpl; [reflexivity|].
  destruct (isdigit ch) eqn:E; simpl; [now rewrite E|assumption].
Qed.

Lemma criar_usuario_cpf_vazio nome data cpf endereco (usuarios : gmap string Usuario) :
  somente_digitos cpf = "" ->
  criar_usuario nome data cpf endereco usuarios
  = (usuarios, Levanta (ValueError msg_cpf_invalido)).
Proof. intros H. unfold criar_usuario, ligar, ler. simpl. now rewrite H. Qed.

Lemma criar_usuario_duplicado nome data cpf endereco (usuarios : gmap string Usuario) :
  somente_digitos cpf <> "" ->
  is_Some (usuarios !! somente_digitos cpf) ->
  criar_usuario nome data cpf endereco usuarios
  = (usuarios, Levanta (ValueError msg_cpf_duplicado)).
Proof.
  intros Hne Hin. unfold criar_usuario, ligar, ler. simpl.
  apply String.eqb_neq in Hne. rewrite Hne.
  now rewrite bool_decide_true.
Qed.

Lemma criar_usuario_novo nome data cpf endereco (usuarios : gmap string Usuario) :
  somente_digitos cpf <> "" ->
  usuarios !! somente_digitos cpf = None ->
  criar_usuario nome data cpf endereco usuarios =
  match strptime_dmY data with
  | None => (usuarios, Levanta (ValueError msg_data_invalida))
  | Some lido =>
      let usuario :=
        mk_Usuario (strip nome) (dt_data lido) (somente_digitos cpf) (strip endereco) in
      (<[somente_digitos cpf := usuario]> usuarios, Retorna usuario)
  end.
Proof.
  intros Hne Hnone. unfold criar_usuario, ligar, ler. simpl.
  apply String.eqb_neq in Hne. rewrite Hne, Hnone.
  rewrite bool_decide_false by (intros [x Hx]; discriminate).
  destruct (strptime_dmY data); reflexivity.
Qed.

(** After a registration that succeeds, the holder is in the registry
    under the normalized identifier. *)
Lemma criar_usuario_registrado nome data cpf_lido endereco
    (usuarios usuarios' : gmap string Usuario) u :
  criar_usuario nome data cpf_lido endereco usuarios = (usuarios', Retorna u) ->
  somente_digitos cpf_lido <> ""
  /\ usuarios !! somente_digitos cpf_lido = None
  /\ usuarios' !! somente_digitos cpf_lido = Some u
  /\ cpf u = somente_digitos cpf_lido.
Proof.
  intros H.
  destruct (String.eqb_spec (somente_digitos cpf_lido) "") as [He|Hne].
  { rewrite criar_usuario_cpf_vazio in H by assumption. discriminate. }
  destruct (usuarios !! somente_digitos cpf_lido) as [x|] eqn:Hl.
  { rewrite criar_usuario_duplicado in H by (rewrite ?Hl; eauto). discriminate. }
  rewrite criar_usuario_novo in H by assumption.
  destruct (strptime_dmY data); [|discriminate]. cbv zeta in H.
  injection H as <- <-. repeat split; try assumption.
  apply lookup_insert_eq.
Qed.

(** C8.  Registration keeps the holders unique by normalized identifier.
    The raw identifier is reduced to its digits; an identifier without a
    digit is refused with ValidationError; an identifier whose digits are
    those of a registered holder is refused with DuplicateError.  So,
    after a holder is registered with 123.456.789-00, a registration with
    12345678900 fails with DuplicateError, and the same in the other
    order. *)
Theorem C8_registration_uniqueness :
  (forall texto, todos isdigit (somente_digitos texto) = true)
  /\ (forall nome data cpf endereco (usuarios : gmap string Usuario),
      somente_digitos cpf = "" ->
      criar_usuario nome data cpf endereco usuarios
      = (usuarios, Levanta (ValueError msg_cpf_invalido))
      /\ error_kind (ValueError msg_cpf_invalido) = Some ValidationError)
  /\ (forall nome data cpf endereco (usuarios : gmap string Usuario),
      somente_digitos cpf <> "" ->
      is_Some (usuarios !! somente_digitos cpf) ->
      criar_usuario nome data cpf endereco usuarios
      = (usuarios, Levanta (ValueError msg_cpf_duplicado))
      /\ error_kind (ValueError msg_cpf_duplicado) = Some DuplicateError)
  /\ (forall nome1 data1 cpf1 endereco1 nome2 data2 cpf2 endereco2
             (usuarios usuarios' : gmap string Usuario) u,
      somente_digitos cpf2 = somente_digitos cpf1 ->
      criar_usuario nome1 data1 cpf1 endereco1 usuarios = (usuarios', Retorna u) ->
      criar_usuario nome2 data2 cpf2 endereco2 usuarios'
      = (usuarios', Levanta (ValueError msg_cpf_duplicado)))
  /\ (forall nome1 data1 cpf1 endereco1 nome2 data2 cpf2 endereco2
             (usuarios usuarios' : gmap string Usuario) u,
      (cpf1 = "123.456.789-00" /\ cpf2 = "12345678900")
      \/ (cpf1 = "12345678900" /\ cpf2 = "123.456.789-00") ->
      criar_usuario nome1 data1 cpf1 endereco1 usuarios = (usuarios', Retorna u) ->
      cpf u = "12345678900"
      /\ criar_usuario nome2 data2 cpf2 endereco2 usuarios'
         = (usuarios', Levanta (ValueError msg_cpf_duplicado))).
Proof.
  assert (Hgeral : forall nome1 data1 cpf1 endereco1 nome2 data2 cpf2 endereco2
             (usuarios usuarios' : gmap string Usuario) u,
      somente_digitos cpf2 = somente_digitos cpf1 ->
      criar_usuario nome1 data1 cpf1 endereco1 usuarios = (usuarios', Retorna u) ->
      criar_usuario nome2 data2 cpf2 endereco2 usuarios'
      = (usuarios', Levanta (ValueError msg_cpf_duplicado))).
  { intros * Hsd H. apply criar_usuario_registrado in H as (Hne & _ & Hin & _).
    apply criar_usuario_duplicado; rewrite Hsd; eauto. }
  split; [apply somente_digitos_todos|].
  split; [intros; split; [now apply criar_usuario_cpf_vazio | apply error_kinds]|].
  split; [intros; split; [now apply criar_usuario_duplicado | apply error_kinds]|].
  split; [exact Hgeral|].
  intros * Hcpf H. split.
  - apply criar_usuario_registrado in H as (_ & _ & _ & ->).
    destruct Hcpf as [[-> _]|[-> _]]; reflexivity.
  - apply (Hgeral nome1 data1 cpf1 endereco1 nome2 data2 cpf2 endereco2
                   usuarios usuarios' u); [|exact H].
    destruct Hcpf as [[-> ->]|[-> ->]]; reflexivity.
Qed.

(** C10.  In a registration the duplicate check comes before the birth
    date is read: an identifier with at least one digit that is already
    registered gives DuplicateError whatever the birth-date string is,
    also one that cannot be parsed; and a birth-date string that cannot
    be parsed, for an identifier with a digit that is not registered,
    gives ValidationError and leaves the registry as it was, without the
    new holder. *)
Theorem C10_duplicate_check_before_birth_date :
  (forall nome data cpf endereco (usuarios : gmap string Usuario),
      somente_digitos cpf <> "" ->
      is_Some (usuarios !! somente_digitos cpf) ->
      criar_usuario nome data cpf endereco usuarios
      = (usuarios, Levanta (ValueError msg_cpf_duplicado))
      /\ error_kind (ValueError msg_cpf_duplicado) = Some DuplicateError)
  /\ (forall nome data cpf endereco (usuarios : gmap string Usuario),
      somente_digitos cpf <> "" ->
      usuarios !! somente_digitos cpf = None ->
      strptime_dmY data = None ->
      criar_usuario nome data cpf endereco usuarios
      = (usuarios, Levanta (ValueError msg_data_invalida))
      /\ error_kind (ValueError msg_data_invalida) = Some ValidationError
      /\ fst (criar_usuario nome data cpf endereco usuarios) !! somente_digitos cpf
         = None).
Proof.
  split.
  - intros. split; [now apply criar_usuario_duplicado | apply error_kinds].
  - intros * Hne Hnone Hdata.
    rewrite criar_usuario_novo, Hdata by assumption.
    split; [reflexivity|]. split; [apply error_kinds | exact Hnone].
Qed.

(** *** Statement *)

Lemma append_cons (ch : ascii) (s1 s2 : string) :
  String ch s1 +:+ s2 = String ch (s1 +:+ s2).
Proof. reflexivity. Qed.

Lemma append_nil_r (s : string) : s +:+ "" = s.
Proof.
  induction s as [|ch s IH]; [reflexivity|]. now rewrite append_cons, IH.
Qed.

Lemma append_assoc (s1 s2 s3 : string) : (s1 +:+ s2) +:+ s3 = s1 +:+ s2 +:+ s3.
Proof.
  induction s1 as [|ch s1 IH]; [reflexivity|]. now rewrite !append_cons, IH.
Qed.

Lemma join_linhas (x : string) (xs : list string) :
  join nl (x :: xs) = x +:+ linhas_em_ordem xs.
Proof.
  revert x. induction xs as [|y ys IH]; intros x.
  - symmetry. apply append_nil_r.
  - change (join nl (x :: y :: ys)) with (x +:+ nl +:+ join nl (y :: ys)).
    now rewrite IH.
Qed.

Lemma linhas_em_ordem_app (xs ys : list string) :
  linhas_em_ordem (xs ++ ys) = linhas_em_ordem xs +:+ linhas_em_ordem ys.
Proof.
  induction xs as [|x xs IH]; simpl; [reflexivity|].
  now rewrite IH, !append_assoc.
Qed.

(** C9.  The statement is a pure read.  Its text is the heading, then the
    entries of the log in the order in which they are stored, each on its
    own line (or the line that says there are no transactions when the
    log is empty), then the line of the current balance, then the closing
    line; and the account is left as it was.  For an account without
    transactions the text has the no-transactions line and the balance of
    zero. *)
Theorem C9_statement_pure_read (c : Conta) :
  let corpo := match extrato c with [] => [sem_movimentacoes] | _ :: _ => extrato c end in
  extrato_da_conta c
  = (c, Retorna (cabecalho_extrato +:+ linhas_em_ordem corpo
                 +:+ nl +:+ "Saldo atual: " +:+ formatar_moeda (saldo c)
                 +:+ nl +:+ rodape_extrato))
  /\ (extrato c = [] -> saldo c = fzero ->
      extrato_da_conta c
      = (c, Retorna (cabecalho_extrato +:+ nl +:+ sem_movimentacoes
                     +:+ nl +:+ "Saldo atual: " +:+ formatar_moeda fzero
                     +:+ nl +:+ rodape_extrato))).
Proof.
  assert (H : extrato_da_conta c
    = (c, Retorna (cabecalho_extrato
         +:+ linhas_em_ordem
               (match extrato c with [] => [sem_movimentacoes] | _ :: _ => extrato c end)
         +:+ nl +:+ "Saldo atual: " +:+ formatar_moeda (saldo c)
         +:+ nl +:+ rodape_extrato))).
  { unfold extrato_da_conta, ligar, ler, retornar, exibir_extrato. simpl.
    do 2 f_equal.
    destruct (extrato c) as [|x xs]; simpl app; rewrite join_linhas.
    - reflexivity.
    - rewrite <- app_assoc, app_comm_cons, linhas_em_ordem_app. simpl app.
      unfold linhas_em_ordem at 2, linha_saldo_atual.
      now rewrite append_nil_r. }
  cbv zeta. split; [exact H|].
  intros He Hs. rewrite H, He, Hs. reflexivity.
Qed.

End Propriedades.

(** ** Properties of the runs and of the interactive loop *)

Section PropriedadesDosRegistros.
Context {rt : Runtime}.

Lemma filtrar_texto_app (p : ascii -> bool) (a b : string) :
  filtrar_texto p (a +:+ b) = filtrar_texto p a +:+ filtrar_texto p b.
Proof.
  induction a as [|ch a IH]; [reflexivity|].
  rewrite append_cons. simpl. rewrite IH. destruct (p ch); reflexivity.
Qed.

Lemma filtrar_texto_todos (p : ascii -> bool) (s : string) :
  todos p s = true -> filtrar_texto p s = s.
Proof.
  induction s as [|ch s IH]; simpl; [reflexivity|].
  intros H. apply andb_true_iff in H as [H1 H2]. now rewrite H1, IH.
Qed.

Lemma filtrar_texto_comprimento (p : ascii -> bool) (s : string) :
  (String.length (filtrar_texto p s) <= String.length s)%nat.
Proof.
  induction s as [|ch s IH]; simpl; [lia|]. destruct (p ch); simpl; lia.
Qed.

Lemma filtrar_texto_igual (p : ascii -> bool) (s : string) :
  filtrar_texto p s = s -> todos p s = true.
Proof.
  induction s as [|ch s IH]; simpl; [reflexivity|].
  destruct (p ch) eqn:E.
  - intros [= H]. now rewrite IH.
  - intros H. pose proof (filtrar_texto_comprimento p s) as Hl.
    rewrite H in Hl. simpl in Hl. lia.
Qed.

(** X1.  [somente_digitos] gives a normal form: applying it twice is
    applying it once; a text is its own normal form exactly when all its
    characters are digits; and the normal form of two texts put together
    is their normal forms put together. *)
Theorem somente_digitos_forma_normal (a b : string) :
  somente_digitos (somente_digitos a) = somente_digitos a
  /\ String.eqb (somente_digitos a) a = todos isdigit a
  /\ somente_digitos (a +:+ b) = somente_digitos a +:+ somente_digitos b.
Proof.
  unfold somente_digitos. split; [|split].
  - apply filtrar_texto_todos, somente_digitos_todos.
  - destruct (todos isdigit a) eqn:E.
    + apply String.eqb_eq. now apply filtrar_texto_todos.
    + apply String.eqb_neq. intros H. apply filtrar_texto_igual in H. congruence.
  - apply filtrar_texto_app.
Qed.

(** X2.  Lookup after registration.  When [criar_usuario] succeeds,
    [filtrar_usuario_por_cpf] finds the new holder from any text with the
    digits of the identifier given, where it found nobody before; the
    lookup of a text with other digits is not changed; and a registration
    that fails changes no lookup. *)
Theorem consulta_apos_cadastro nome data cpf_lido endereco outro
    (usuarios usuarios' : gmap string Usuario) r :
  criar_usuario nome data cpf_lido endereco usuarios = (usuarios', r) ->
  (forall u, r = Retorna u ->
             somente_digitos outro = somente_digitos cpf_lido ->
             filtrar_usuario_por_cpf outro usuarios = None
             /\ filtrar_usuario_por_cpf outro usuarios' = Some u)
  /\ (somente_digitos outro <> somente_digitos cpf_lido ->
      filtrar_usuario_por_cpf outro usuarios'
      = filtrar_usuario_por_cpf outro usuarios)
  /\ (forall e, r = Levanta e ->
                filtrar_usuario_por_cpf outro usuarios'
                = filtrar_usuario_por_cpf outro usuarios).
Proof.
  intros H. unfold filtrar_usuario_por_cpf. cbv zeta.
  destruct r as [u|e].
  - pose proof (criar_usuario_registrado _ _ _ _ _ _ _ H) as (Hne & Hnone & Hsome & _).
    rewrite criar_usuario_novo in H by assumption.
    destruct (strptime_dmY data) as [lido|]; [|discriminate].
    cbv zeta in H. injection H as <- <-.
    split; [|split].
    + intros u' [= <-] ->. split; [assumption | apply lookup_insert_eq].
    + intros Hd. now rewrite lookup_insert_ne.
    + intros e [=].
  - assert (usuarios' = usuarios) as ->.
    { destruct (String.eqb_spec (somente_digitos cpf_lido) "") as [He|Hne].
      { rewrite criar_usuario_cpf_vazio in H by assumption. congruence. }
      destruct (usuarios !! somente_digitos cpf_lido) as [x|] eqn:Hl.
      { rewrite criar_usuario_duplicado in H by (rewrite ?Hl; eauto). congruence. }
      rewrite criar_usuario_novo in H by assumption.
      destruct (strptime_dmY data); [discriminate | congruence]. }
    split; [intros u [=] | split; reflexivity].
Qed.

(** One attempt either leaves the registry as it was or adds one holder
    under a new key. *)
Lemma cadastrar_casos (usuarios : gmap string Usuario) (p : cadastro) :
  cadastrar usuarios p = usuarios
  \/ exists u,
      usuarios !! somente_digitos (cad_cpf p) = None
      /\ somente_digitos (cad_cpf p) <> ""
      /\ cpf u = somente_digitos (cad_cpf p)
      /\ cadastrar usuarios p = <[somente_digitos (cad_cpf p) := u]> usuarios.
Proof.
  unfold cadastrar.
  destruct (criar_usuario _ _ _ _ usuarios) as [us' [u|e]] eqn:H; simpl.
  - right. exists u.
    pose proof (criar_usuario_registrado _ _ _ _ _ _ _ H) as (Hne & Hnone & _ & Hcpf).
    repeat split; try assumption.
    rewrite criar_usuario_novo in H by assumption.
    destruct (strptime_dmY _); [|discriminate]. cbv zeta in H. now injection H as <- <-.
  - left.
    destruct (String.eqb_spec (somente_digitos (cad_cpf p)) "") as [He|Hne].
    { rewrite criar_usuario_cpf_vazio in H by assumption. congruence. }
    destruct (usuarios !! somente_digitos (cad_cpf p)) as [x|] eqn:Hl.
    { rewrite criar_usuario_duplicado in H by (rewrite ?Hl; eauto). congruence. }
    rewrite criar_usuario_novo in H by assumption.
    destruct (strptime_dmY _); [discriminate | congruence].
Qed.

(** One attempt keeps the registry coherent and keeps every holder. *)
Lemma cadastrar_coerente (usuarios : gmap string Usuario) (p : cadastro) :
  registro_coerente usuarios ->
  registro_coerente (cadastrar usuarios p)
  /\ (forall k u, usuarios !! k = Some u -> cadastrar usuarios p !! k = Some u).
Proof.
  intros Hc.
  destruct (cadastrar_casos usuarios p) as [->|(u & Hnone & Hne & Hcpf & ->)];
    [auto|]. split.
  - apply map_Forall_insert; [assumption|]. split; [|assumption].
    split; [assumption|]. split; [apply somente_digitos_todos | assumption].
  - intros k v Hk. rewrite lookup_insert_ne; [assumption|]. intros <-. congruence.
Qed.

(** X3.  A run of registration attempts, accepted or refused, keeps the
    registry coherent (each holder is under its own identifier, which is
    not empty and has only digits), never removes or replaces a holder,
    and adds at most one holder for each attempt. *)
Theorem cadastros_coerentes (ps : list cadastro) (usuarios : gmap string Usuario) :
  registro_coerente usuarios ->
  registro_coerente (cadastrar_todos ps usuarios)
  /\ (forall k u, usuarios !! k = Some u ->
                  cadastrar_todos ps usuarios !! k = Some u)
  /\ (size usuarios <= size (cadastrar_todos ps usuarios)
      <= size usuarios + length ps)%nat.
Proof.
  unfold cadastrar_todos. revert usuarios.
  induction ps as [|p ps IH]; intros usuarios Hc; simpl.
  - split; [assumption|]. split; [auto | lia].
  - destruct (cadastrar_casos usuarios p) as [->|(u & Hnone & Hne & Hcpf & ->)].
    + destruct (IH usuarios Hc) as (H1 & H2 & H3).
      split; [assumption|]. split; [assumption | lia].
    + destruct (IH (<[somente_digitos (cad_cpf p) := u]> usuarios)) as (H1 & H2 & H3).
      { apply map_Forall_insert; [assumption|].
        split; [|assumption].
        split; [assumption|]. split; [apply somente_digitos_todos | assumption]. }
      split; [assumption|]. split.
      * intros k v Hk. apply H2. rewrite lookup_insert_ne; [assumption|].
        intros <-. congruence.
      * rewrite map_size_insert_None in H3 by assumption. lia.
Qed.

(** The next number is above every number in use. *)
Lemma proximo_numero_acima (contas : gmap Z Conta) :
  exists n, proximo_numero contas = Retorna n
            /\ forall k, is_Some (contas !! k) -> k < n.
Proof.
  destruct (decide (contas = ∅)) as [->|Hne].
  - exists 1. split; [reflexivity|]. intros k [x Hx]. now rewrite lookup_empty in Hx.
  - destruct (proximo_numero_spec contas Hne) as (maior & Hp & _ & Hmax).
    exists (maior + 1). split; [assumption|]. intros k Hk. specialize (Hmax k Hk). lia.
Qed.

Lemma criar_conta_desconhecido cpf_lido (usuarios : gmap string Usuario)
    (contas : gmap Z Conta) :
  usuarios !! somente_digitos cpf_lido = None ->
  criar_conta cpf_lido usuarios contas
  = (contas, Levanta (ValueError msg_usuario_nao_encontrado)).
Proof.
  intros E. unfold criar_conta. rewrite E.
  now rewrite bool_decide_false by (intros [x Hx]; discriminate).
Qed.

(** An opening attempt leaves every account where it was. *)
Lemma abrir_preserva (usuarios : gmap string Usuario) (contas : gmap Z Conta)
    (cpf_lido : string) (k : Z) (c : Conta) :
  contas !! k = Some c -> abrir usuarios contas cpf_lido !! k = Some c.
Proof.
  intros Hk. unfold abrir.
  destruct (usuarios !! somente_digitos cpf_lido) as [u|] eqn:E.
  - rewrite criar_conta_eq by (rewrite E; eauto).
    destruct (proximo_numero_acima contas) as (n & -> & Hmax). simpl.
    rewrite lookup_insert_ne; [assumption|]. intros <-.
    specialize (Hmax n ltac:(eauto)). lia.
  - now rewrite criar_conta_desconhecido.
Qed.

(** X4.  [criar_conta] for a registered holder never overwrites an
    account: the number it gives is not in use and is above every number
    in use, every account stays where it was, and the registry has one
    account more. *)
Theorem criar_conta_numero_novo cpf_lido (usuarios : gmap string Usuario)
    (contas : gmap Z Conta) :
  is_Some (usuarios !! somente_digitos cpf_lido) ->
  exists n,
    criar_conta cpf_lido usuarios contas
    = (<[n := Conta_init "0001" n (somente_digitos cpf_lido)]> contas,
       Retorna (Conta_init "0001" n (somente_digitos cpf_lido)))
    /\ contas !! n = None
    /\ (forall k, is_Some (contas !! k) -> k < n)
    /\ (forall k c, contas !! k = Some c ->
                    fst (criar_conta cpf_lido usuarios contas) !! k = Some c)
    /\ size (fst (criar_conta cpf_lido usuarios contas)) = S (size contas).
Proof.
  intros Hu.
  destruct (proximo_numero_acima contas) as (n & Hp & Hmax). exists n.
  rewrite criar_conta_eq, Hp by assumption. simpl.
  assert (Hnone : contas !! n = None).
  { destruct (contas !! n) eqn:E; [|reflexivity].
    specialize (Hmax n ltac:(eauto)). lia. }
  split; [reflexivity|]. split; [assumption|]. split; [assumption|]. split.
  - intros k c Hk. rewrite lookup_insert_ne; [assumption|]. intros <-. congruence.
  - now apply map_size_insert_None.
Qed.

Lemma proximo_numero_intervalo (contas : gmap Z Conta) (m : Z) :
  0 <= m ->
  (forall j, is_Some (contas !! j) <-> 1 <= j <= m) ->
  proximo_numero contas = Retorna (m + 1).
Proof.
  intros Hm Hdom. destruct (decide (contas = ∅)) as [->|Hne].
  - destruct (decide (m = 0)) as [->|Hm0]; [reflexivity|].
    assert (is_Some ((∅ : gmap Z Conta) !! 1)) as [x Hx] by (apply Hdom; lia).
    now rewrite lookup_empty in Hx.
  - destruct (proximo_numero_spec contas Hne) as (maior & Hp & Hin & Hmax).
    rewrite Hp. apply Hdom in Hin.
    destruct (decide (m = 0)) as [->|Hm0]; [lia|].
    assert (m <= maior) by (apply Hmax, Hdom; lia).
    do 2 f_equal. lia.
Qed.

(** X5.  Accounts opened one after the other from an empty registry, all
    for registered holders: the account under the number k is the new
    account of the k-th opening, with the digits of the identifier given
    there, and nothing is stored under any other number. *)
Theorem abrir_todas_numeros (cpfs : list string) (usuarios : gmap string Usuario) :
  Forall (fun c => is_Some (usuarios !! somente_digitos c)) cpfs ->
  forall k,
    abrir_todas cpfs usuarios ∅ !! k
    = if 1 <=? k
      then (fun c => Conta_init "0001" k (somente_digitos c))
             <$> cpfs !! Z.to_nat (k - 1)
      else None.
Proof.
  induction cpfs as [|c cpfs IH] using rev_ind; intros Hall k.
  - unfold abrir_todas. simpl. rewrite lookup_empty. now destruct (1 <=? k).
  - apply Forall_app in Hall as [Hall Hc]. apply Forall_inv in Hc.
    specialize (IH Hall).
    unfold abrir_todas in *. rewrite foldl_app. simpl.
    set (contas := foldl (abrir usuarios) ∅ cpfs) in *.
    assert (Hdom : forall j, is_Some (contas !! j) <-> 1 <= j <= Z.of_nat (length cpfs)).
    { intros j. rewrite IH. destruct (1 <=? j) eqn:E.
      - apply Z.leb_le in E. rewrite fmap_is_Some, lookup_lt_is_Some. lia.
      - apply Z.leb_gt in E. split; [intros [x Hx]; discriminate | lia]. }
    unfold abrir at 1.
    rewrite criar_conta_eq by assumption.
    rewrite (proximo_numero_intervalo contas (Z.of_nat (length cpfs))) by (lia || assumption).
    simpl.
    destruct (decide (k = Z.of_nat (length cpfs) + 1)) as [->|Hk].
    + rewrite lookup_insert_eq.
      replace (1 <=? _) with true by (symmetry; apply Z.leb_le; lia).
      replace (Z.to_nat (Z.of_nat (length cpfs) + 1 - 1)) with (length cpfs) by lia.
      now rewrite lookup_app_r, Nat.sub_diag by lia.
    + rewrite lookup_insert_ne by congruence. rewrite IH.
      destruct (1 <=? k) eqn:E; [|reflexivity].
      apply Z.leb_le in E.
      destruct (decide (Z.to_nat (k - 1) < length cpfs)%nat) as [Hlt|Hge].
      * now rewrite lookup_app_l.
      * rewrite !lookup_ge_None_2; [reflexivity| |lia].
        rewrite length_app. simpl. lia.
Qed.

End PropriedadesDosRegistros.

Section PropriedadesDosMovimentos.
Context {rt : Runtime}.

(** What one operation does to the account. *)
Lemma aplicar_casos (op : operacao) (c : Conta) :
  let c' := aplicar c op in
  agencia c' = agencia c /\ numero c' = numero c /\ cpf_titular c' = cpf_titular c
  /\ (if aceita op c
      then exists linha, extrato c' = (extrato c ++ [linha])%list
      else extrato c' = extrato c /\ saldo c' = saldo c).
Proof.
  cbv zeta. unfold aplicar, aceita.
  destruct op as [agora valor|relogio agora valor limite limite_dia]; simpl.
  - rewrite depositar_na_conta_eq, deposito_eq.
    destruct (fle valor fzero); simpl; repeat split; eauto.
  - rewrite sacar_da_conta_eq. cbv zeta. rewrite saque_eq.
    assert (Hid : agencia (conta_apos_reset relogio c) = agencia c
                  /\ numero (conta_apos_reset relogio c) = numero c
                  /\ cpf_titular (conta_apos_reset relogio c) = cpf_titular c).
    { rewrite conta_apos_reset_eq. now case_bool_decide. }
    destruct Hid as (H1 & H2 & H3).
    rewrite conta_apos_reset_saldo.
    destruct (fle valor fzero); [|destruct (fgt valor (saldo c));
      [|destruct (fgt valor limite); [|destruct (_ >=? _)]]];
      simpl; rewrite ?conta_apos_reset_extrato, ?conta_apos_reset_saldo;
      (split; [exact H1|]); (split; [exact H2|]); (split; [exact H3|]);
      solve [split; reflexivity | eexists; reflexivity].
Qed.

(** X6.  A session of deposits and withdrawals never changes the agency,
    the number and the holder of the account and never rewrites its log:
    the log after the session is the log before it followed by one line
    for each operation that was accepted. *)
Theorem extrato_so_cresce (ops : list operacao) (c : Conta) :
  let c' := aplicar_todas ops c in
  agencia c' = agencia c /\ numero c' = numero c /\ cpf_titular c' = cpf_titular c
  /\ exists novas,
      extrato c' = (extrato c ++ novas)%list
      /\ length novas = aceitas ops c.
Proof.
  cbv zeta. unfold aplicar_todas. revert c.
  induction ops as [|op ops IH]; intros c; simpl.
  - repeat split. exists []. split; [now rewrite app_nil_r | reflexivity].
  - destruct (IH (aplicar c op)) as (H1 & H2 & H3 & novas & He & Hl).
    destruct (aplicar_casos op c) as (A1 & A2 & A3 & A4).
    rewrite H1, H2, H3, He. repeat split; try assumption.
    destruct (aceita op c).
    + destruct A4 as [linha ->]. exists (linha :: novas).
      rewrite <- app_assoc. split; [reflexivity | simpl; lia].
    + destruct A4 as [-> _]. exists novas. split; [reflexivity | simpl; lia].
Qed.

(** One operation under the daily limit keeps the count within it. *)
Lemma aplicar_contagem_limitada (limite_dia : Z) (op : operacao) (c : Conta) :
  sob_limite_diario limite_dia op ->
  0 <= numero_saques_hoje c <= Z.max 0 limite_dia ->
  0 <= numero_saques_hoje (aplicar c op) <= Z.max 0 limite_dia.
Proof.
  intros Hop Hc. unfold aplicar.
  destruct op as [agora valor|relogio agora valor limite l]; simpl in *.
  - rewrite depositar_na_conta_eq, deposito_eq.
    destruct (fle valor fzero); simpl; assumption.
  - subst l. rewrite sacar_da_conta_eq. cbv zeta. rewrite saque_eq.
    assert (H0 : 0 <= numero_saques_hoje (conta_apos_reset relogio c) <= Z.max 0 limite_dia).
    { rewrite conta_apos_reset_eq. case_bool_decide; simpl; lia. }
    repeat (match goal with |- context [if ?b then _ else _] => destruct b eqn:? end);
      simpl; try assumption.
    match goal with H : (_ >=? _) = false |- _ => rewrite Z.geb_leb in H; apply Z.leb_gt in H end.
    lia.
Qed.

(** X7.  From a new account, a session whose withdrawals are all made
    under the daily limit [limite_dia] keeps the count of withdrawals
    between 0 and that limit (between 0 and 0 when the limit is
    negative), whatever the clock shows. *)
Theorem contagem_dentro_do_limite (limite_dia : Z) (ops : list operacao)
    (a : string) (n : Z) (t : string) :
  Forall (sob_limite_diario limite_dia) ops ->
  0 <= numero_saques_hoje (aplicar_todas ops (Conta_init a n t)) <= Z.max 0 limite_dia.
Proof.
  intros Hops.
  assert (H : forall c, 0 <= numero_saques_hoje c <= Z.max 0 limite_dia ->
                        0 <= numero_saques_hoje (aplicar_todas ops c) <= Z.max 0 limite_dia).
  { unfold aplicar_todas. induction Hops as [|op ops Hop _ IH]; intros c Hc; simpl.
    - assumption.
    - now apply IH, aplicar_contagem_limitada. }
  apply H. simpl. lia.
Qed.

Lemma aplicar_conta_do_dia limite_dia hoje (op : operacao) (c : Conta) (j : nat) :
  sob_limite_diario limite_dia op -> no_dia hoje op ->
  conta_do_dia limite_dia hoje c j ->
  conta_do_dia limite_dia hoje (aplicar c op)
    (j + (if e_saque op && aceita op c then 1 else 0)).
Proof.
  intros Hl Hd (Hn & Hj & Hdata). unfold aplicar, aceita, conta_do_dia.
  destruct op as [agora valor|relogio agora valor limite l]; simpl in *.
  - rewrite Nat.add_0_r, depositar_na_conta_eq, deposito_eq.
    destruct (fle valor fzero); simpl; auto.
  - subst l. rewrite sacar_da_conta_eq. cbv zeta. rewrite saque_eq.
    assert (H0 : numero_saques_hoje (conta_apos_reset relogio c) = Z.of_nat j).
    { rewrite conta_apos_reset_eq, Hd. case_bool_decide as E; simpl; [|assumption].
      destruct Hdata as [Hs|[_ ->]]; [congruence | reflexivity]. }
    pose proof (conta_apos_reset_data relogio c) as H1. rewrite Hd in H1.
    rewrite conta_apos_reset_saldo.
    destruct (fle valor fzero); [|destruct (fgt valor (saldo c));
      [|destruct (fgt valor limite); [|destruct (_ >=? _) eqn:E]]];
      simpl; rewrite ?Nat.add_0_r; auto.
    rewrite Z.geb_leb in E. apply Z.leb_gt in E.
    split; [lia|]. split; [lia | auto].
Qed.

(** X8.  From a new account, in a session of one day under one daily
    limit, the count of the account is the number of the withdrawals that
    were accepted, and that number is within the limit: deposits and
    refused withdrawals are not counted. *)
Theorem saques_de_um_dia (limite_dia : Z) (hoje : date) (ops : list operacao)
    (a : string) (n : Z) (t : string) :
  Forall (sob_limite_diario limite_dia) ops ->
  Forall (no_dia hoje) ops ->
  numero_saques_hoje (aplicar_todas ops (Conta_init a n t))
  = Z.of_nat (saques_aceitos ops (Conta_init a n t))
  /\ Z.of_nat (saques_aceitos ops (Conta_init a n t)) <= Z.max 0 limite_dia.
Proof.
  intros Hl Hd.
  assert (H : forall c j, conta_do_dia limite_dia hoje c j ->
                          conta_do_dia limite_dia hoje (aplicar_todas ops c)
                            (j + saques_aceitos ops c)).
  { unfold aplicar_todas. clear a n t.
    induction ops as [|op ops IH]; intros c j Hc; simpl.
    - now rewrite Nat.add_0_r.
    - apply Forall_cons in Hl as [Hl1 Hl2]. apply Forall_cons in Hd as [Hd1 Hd2].
      rewrite Nat.add_assoc. apply IH; try assumption.
      now apply aplicar_conta_do_dia. }
  destruct (H (Conta_init a n t) 0%nat) as (H1 & H2 & _).
  { split; [reflexivity|]. split; [simpl; lia | right; split; reflexivity]. }
  simpl in H1, H2. split; assumption.
Qed.

(** *** Currency text *)

Lemma replace_mapear (old new : ascii) (s : string) :
  replace old (String new EmptyString) s
  = mapear (fun ch => if Ascii.eqb ch old then new else ch) s.
Proof.
  induction s as [|ch s IH]; simpl; [reflexivity|].
  rewrite IH. destruct (Ascii.eqb ch old); reflexivity.
Qed.

Lemma mapear_mapear (f g : ascii -> ascii) (s : string) :
  mapear f (mapear g s) = mapear (fun ch => f (g ch)) s.
Proof. induction s as [|ch s IH]; simpl; [reflexivity | now rewrite IH]. Qed.

Lemma mapear_app (f : ascii -> ascii) (s1 s2 : string) :
  mapear f (s1 +:+ s2) = mapear f s1 +:+ mapear f s2.
Proof.
  induction s1 as [|ch s1 IH]; [reflexivity|].
  rewrite append_cons. simpl. now rewrite IH, append_cons.
Qed.

Lemma mapear_todos (p : ascii -> bool) (f g : ascii -> ascii) (s : string) :
  (forall ch, p ch = true -> f ch = g ch) ->
  todos p s = true -> mapear f s = mapear g s.
Proof.
  intros Hfg. induction s as [|ch s IH]; simpl; [reflexivity|].
  intros H. apply andb_true_iff in H as [H1 H2]. now rewrite Hfg, IH.
Qed.

Lemma mapear_comprimento (f : ascii -> ascii) (s : string) :
  String.length (mapear f s) = String.length s.
Proof. induction s as [|ch s IH]; simpl; [reflexivity | now rewrite IH]. Qed.

(** X9.  [formatar_moeda] swaps the separators: when the text of the
    amount with two decimals and thousands separators has no capital X in
    it, the result is [R$ ] and that text with every comma turned into a
    point and every point into a comma, three characters longer than the
    text. *)
Theorem formatar_moeda_troca_separadores (valor : float) :
  sem_x (formato_milhar_2f valor) = true ->
  formatar_moeda valor = "R$ " +:+ mapear trocar_separador (formato_milhar_2f valor)
  /\ String.length (formatar_moeda valor)
     = (3 + String.length (formato_milhar_2f valor))%nat.
Proof.
  intros H.
  assert (E : formatar_moeda valor
              = "R$ " +:+ mapear trocar_separador (formato_milhar_2f valor)).
  { unfold formatar_moeda.
    rewrite !replace_mapear, !mapear_mapear, mapear_app.
    f_equal. apply (mapear_todos (fun ch => negb (Ascii.eqb ch "X"))); [|exact H].
    intros ch Hch. unfold trocar_separador.
    destruct (Ascii.eqb_spec ch ","). { subst. reflexivity. }
    destruct (Ascii.eqb_spec ch "."). { subst. reflexivity. }
    destruct (Ascii.eqb_spec ch "X"). { discriminate. }
    reflexivity. }
  split; [exact E|]. rewrite E.
  change (S (S (S (String.length (mapear trocar_separador (formato_milhar_2f valor)))))
          = S (S (S (String.length (formato_milhar_2f valor))))).
  now rewrite mapear_comprimento.
Qed.

End PropriedadesDosMovimentos.

Section PropriedadesDaListagem.
Context {rt : Runtime} {lei : Leitor}.

Lemma ordem_das_chaves_trans : Transitive ordem_das_chaves.
Proof. intros x y z. unfold ordem_das_chaves. lia. Qed.

Lemma ordem_das_chaves_total : Total ordem_das_chaves.
Proof. intros x y. unfold ordem_das_chaves. lia. Qed.

Lemma foldl_linhas (usuarios : gmap string Usuario) (itens : list (Z * Conta))
    (inicio : list string) :
  foldl (fun linhas '(n, c) => (linhas ++ [linha_conta usuarios c])%list) inicio itens
  = (inicio ++ ((fun x => linha_conta usuarios x.2) <$> itens))%list.
Proof.
  revert inicio. induction itens as [|[n c] itens IH]; intros inicio; simpl.
  - now rewrite app_nil_r.
  - rewrite IH, <- app_assoc. reflexivity.
Qed.

Lemma ordem_estrita (itens : list (Z * Conta)) :
  StronglySorted ordem_das_chaves itens -> NoDup itens.*1 ->
  StronglySorted (fun x y => x.1 < y.1) itens.
Proof.
  induction 1 as [|x itens Hs IH Hx]; intros Hnd; [constructor|].
  simpl in Hnd. apply NoDup_cons in Hnd as [Hnotin Hnd].
  constructor; [now apply IH|].
  rewrite Forall_forall in *. intros y Hy.
  specialize (Hx y Hy). unfold ordem_das_chaves in Hx.
  assert (x.1 <> y.1).
  { intros E. apply Hnotin. rewrite E. now apply list_elem_of_fmap_2. }
  lia.
Qed.

(** X10.  [listar_contas] gives the notice of the empty list for an empty
    registry; otherwise a header, one line for each account of the
    registry and for these only, in the strictly increasing order of the
    account numbers, and a footer. *)
Theorem listar_contas_em_ordem (contas : gmap Z Conta) (usuarios : gmap string Usuario) :
  listar_contas ∅ usuarios = nenhuma_conta
  /\ (contas <> ∅ ->
      exists itens,
        (forall k c, (k, c) ∈ itens <-> contas !! k = Some c)
        /\ StronglySorted (fun x y => x.1 < y.1) itens
        /\ length itens = size contas
        /\ listar_contas contas usuarios
           = cabecalho_contas
             +:+ linhas_em_ordem ((fun x => linha_conta usuarios x.2) <$> itens)
             +:+ nl +:+ rodape_contas).
Proof.
  split; [reflexivity|]. intros Hne.
  exists (itens_ordenados contas).
  assert (Hperm : itens_ordenados contas ≡ₚ map_to_list contas)
    by apply merge_sort_Permutation.
  split; [|split; [|split]].
  - intros k c. rewrite Hperm. apply elem_of_map_to_list.
  - apply ordem_estrita.
    + pose proof ordem_das_chaves_trans. pose proof ordem_das_chaves_total.
      apply StronglySorted_merge_sort; assumption.
    + rewrite Hperm. apply NoDup_fst_map_to_list.
  - rewrite Hperm. apply length_map_to_list.
  - unfold listar_contas. rewrite bool_decide_false by assumption.
    cbv zeta. rewrite foldl_linhas. simpl app.
    rewrite join_linhas, linhas_em_ordem_app. simpl.
    now rewrite append_nil_r.
Qed.

End PropriedadesDaListagem.

Section PropriedadesDaExecucao.
Context {rt : Runtime} {lei : Leitor}.
Variable tempo : nat -> datetime.

Lemma conta_em_uso_Some (m : Mundo) (k : Z) (c : Conta) :
  conta_em_uso m = Some (k, c) ->
  m_conta_atual m = Some k /\ m_contas m !! k = Some c.
Proof.
  unfold conta_em_uso. destruct (m_conta_atual m) as [j|]; [|discriminate].
  destruct (m_contas m !! j) as [x|] eqn:E; [|discriminate].
  intros [= <- <-]. auto.
Qed.

Ltac nada := apply T_nada; reflexivity.

Lemma comando_depositar (m : Mundo) : transicao m (fst (comando tempo "d" m)).
Proof.
  unfold comando, seguir, ver. simpl.
  destruct (conta_em_uso m) as [[k c]|] eqn:E; [|nada].
  apply conta_em_uso_Some in E as [Hk Hc].
  unfold _input_float, seguir, input.
  destruct (m_entrada m) as [|linha resto] eqn:El; simpl; [nada|].
  destruct (py_float _) as [valor|] eqn:Ev; simpl; [|nada].
  unfold na_conta. simpl.
  destruct (depositar_na_conta _ valor c) as [c' r] eqn:Ed. simpl.
  assert (c' = aplicar c (OpDeposito (tempo (m_leituras m)) valor))
    by (unfold aplicar; simpl; now rewrite Ed).
  subst c'.
  destruct r; simpl;
    (eapply (T_operacao _ _ k c (OpDeposito _ valor)); simpl; eauto;
     exists linha; split; [rewrite El; apply list_elem_of_here | assumption]).
Qed.

Lemma comando_sacar (m : Mundo) : transicao m (fst (comando tempo "s" m)).
Proof.
  unfold comando, seguir, ver. simpl.
  destruct (conta_em_uso m) as [[k c]|] eqn:E; [|nada].
  apply conta_em_uso_Some in E as [Hk Hc].
  unfold _input_float, seguir, input.
  destruct (m_entrada m) as [|linha resto] eqn:El; simpl; [nada|].
  destruct (py_float _) as [valor|] eqn:Ev; simpl; [|nada].
  unfold na_conta. simpl.
  destruct (sacar_da_conta _ _ valor _ _ c) as [c' r] eqn:Ed. simpl.
  assert (c' = aplicar c (OpSaque (tempo (m_leituras m)) (tempo (S (m_leituras m)))
                                  valor limite_por_saque limite_saques_dia))
    by (unfold aplicar; simpl; now rewrite Ed).
  subst c'.
  destruct r; simpl;
    (eapply (T_operacao _ _ k c (OpSaque _ _ valor _ _)); simpl; eauto;
     exists linha; split; [rewrite El; apply list_elem_of_here | assumption]).
Qed.

Lemma comando_extrato (m : Mundo) : transicao m (fst (comando tempo "e" m)).
Proof.
  unfold comando, seguir, ver. simpl.
  destruct (conta_em_uso m) as [[k c]|] eqn:E; [|nada].
  apply conta_em_uso_Some in E as [Hk Hc].
  unfold na_conta, extrato_da_conta, ligar, ler, retornar. simpl.
  apply T_nada; simpl; try reflexivity. now apply insert_id.
Qed.

Lemma comando_novo_usuario (m : Mundo) : transicao m (fst (comando tempo "nu" m)).
Proof.
  unfold comando, seguir, ver, input. simpl.
  destruct (m_entrada m) as [|l1 [|l2 [|l3 [|l4 resto]]]]; simpl; try nada.
  unfold nos_usuarios. simpl.
  destruct (criar_usuario _ _ _ _ _) as [us r] eqn:E.
  assert (us = cadastrar (m_usuarios m) (mk_cadastro (strip l1) (strip l2) (strip l3) (strip l4)))
    by (unfold cadastrar; simpl; now rewrite E).
  destruct r; simpl; eapply T_cadastro; simpl; eauto.
Qed.

Lemma comando_nova_conta (m : Mundo) : transicao m (fst (comando tempo "nc" m)).
Proof.
  unfold comando, seguir, ver, input. simpl.
  destruct (m_entrada m) as [|l1 resto]; simpl; try nada.
  unfold nas_contas. simpl.
  destruct (criar_conta _ _ _) as [cs r] eqn:E.
  assert (cs = abrir (m_usuarios m) (m_contas m) (strip l1))
    by (unfold abrir; now rewrite E).
  destruct r; simpl; eapply T_abertura; simpl; eauto.
Qed.

Lemma comando_acessar (m : Mundo) : transicao m (fst (comando tempo "ac" m)).
Proof.
  unfold comando, seguir, ver. simpl.
  case_bool_decide; [nada|].
  unfold input. destruct (m_entrada m) as [|l1 resto]; simpl; try nada.
  destruct (py_int _) as [numero|]; simpl; [|nada].
  destruct (m_contas m !! numero) as [c|] eqn:E; simpl.
  - apply (T_acesso _ _ (Some numero)); simpl; try reflexivity.
    intros k [= <-]. eauto.
  - apply (T_acesso _ _ None); simpl; try reflexivity. intros k [=].
Qed.

(** Each command is one step on the registries. *)
Lemma comando_transicao (opcao : string) (m : Mundo) :
  transicao m (fst (comando tempo opcao m)).
Proof.
  destruct (String.eqb_spec opcao "d") as [->|Hd]; [apply comando_depositar|].
  destruct (String.eqb_spec opcao "s") as [->|Hs]; [apply comando_sacar|].
  destruct (String.eqb_spec opcao "e") as [->|He]; [apply comando_extrato|].
  destruct (String.eqb_spec opcao "nu") as [->|Hnu]; [apply comando_novo_usuario|].
  destruct (String.eqb_spec opcao "nc") as [->|Hnc]; [apply comando_nova_conta|].
  destruct (String.eqb_spec opcao "ac") as [->|Hac]; [apply comando_acessar|].
  unfold comando, seguir, ver. simpl.
  apply String.eqb_neq in Hd, Hs, He, Hnu, Hnc, Hac.
  rewrite Hd, Hs, He, Hnu, Hnc, Hac.
  destruct (String.eqb opcao "lc"); nada.
Qed.

Lemma print_nucleo (texto : string) (m : Mundo) :
  m_usuarios (fst (print texto m)) = m_usuarios m
  /\ m_contas (fst (print texto m)) = m_contas m
  /\ m_conta_atual (fst (print texto m)) = m_conta_atual m
  /\ m_entrada (fst (print texto m)) = m_entrada m.
Proof. repeat split. Qed.

Lemma transicao_print (texto : string) (m m' : Mundo) :
  transicao m m' -> transicao m (fst (print texto m')).
Proof.
  intros [H1 H2 H3|k c op H1 H2 H3 H7 H4 H5 H6|p H1 H2 H3|x H1 H2 H3|v H1 H2 H3 H4].
  - now apply T_nada.
  - now apply (T_operacao _ _ k c op).
  - now apply (T_cadastro _ _ p).
  - now apply (T_abertura _ _ x).
  - now apply (T_acesso _ _ v).
Qed.

Lemma transicao_input (msg : string) (m m' : Mundo) :
  transicao (fst (input msg m)) m' -> transicao m m'.
Proof.
  assert (E : m_usuarios (fst (input msg m)) = m_usuarios m
              /\ m_contas (fst (input msg m)) = m_contas m
              /\ m_conta_atual (fst (input msg m)) = m_conta_atual m).
  { unfold input. destruct (m_entrada m); repeat split. }
  destruct E as (E1 & E2 & E3).
  assert (E4 : forall l, l ∈ m_entrada (fst (input msg m)) -> l ∈ m_entrada m).
  { unfold input. destruct (m_entrada m) as [|l0 resto]; simpl; [auto|].
    intros l Hl. now apply list_elem_of_further. }
  intros [H1 H2 H3|k c op H1 H2 H3 H7 H4 H5 H6|p H1 H2 H3|x H1 H2 H3|v H1 H2 H3 H4];
    rewrite ?E1, ?E2, ?E3 in *.
  - now apply T_nada.
  - apply (T_operacao _ _ k c op); try assumption.
    destruct H7 as (l & Hl & Hv). exists l. auto.
  - now apply (T_cadastro _ _ p).
  - now apply (T_abertura _ _ x).
  - now apply (T_acesso _ _ v).
Qed.

(** Each turn of the loop is one step on the registries. *)
Lemma volta_transicao (m : Mundo) : transicao m (fst (volta tempo m)).
Proof.
  unfold volta. apply (transicao_input MENU).
  destruct (input MENU m) as [m1 [linha|f]]; simpl.
  - destruct (String.eqb _ "q"); simpl; [apply T_nada; reflexivity|].
    pose proof (comando_transicao (lower (strip linha)) m1) as H.
    destruct (comando tempo _ m1) as [m2 [[]|f]]; simpl in *;
      [assumption | now apply transicao_print].
  - apply T_nada; reflexivity.
Qed.

Lemma abrir_casos (usuarios : gmap string Usuario) (contas : gmap Z Conta)
    (cpf_lido : string) (n : Z) :
  0 <= n ->
  (forall j, is_Some (contas !! j) <-> 1 <= j <= n) ->
  abrir usuarios contas cpf_lido = contas
  \/ (is_Some (usuarios !! somente_digitos cpf_lido)
      /\ abrir usuarios contas cpf_lido
         = <[n + 1 := Conta_init "0001" (n + 1) (somente_digitos cpf_lido)]> contas).
Proof.
  intros Hn Hdom. unfold abrir.
  destruct (usuarios !! somente_digitos cpf_lido) as [u|] eqn:E.
  - right. split; [eauto|].
    rewrite criar_conta_eq by (rewrite E; eauto).
    now rewrite (proximo_numero_intervalo contas n).
  - left. now rewrite criar_conta_desconhecido.
Qed.

(** A step on registries that are in order leaves them in order. *)
Lemma transicao_coerente (m m' : Mundo) :
  mundo_coerente m -> transicao m m' -> mundo_coerente m'.
Proof.
  intros (Hu & Hc & Hd & Ha)
    [H1 H2 H3|k c op Hk Hkc Hop Hpv H1 H2 H3|p H1 H2 H3|x H1 H2 H3|v H1 H2 H3 H4];
    unfold mundo_coerente; rewrite ?H1, ?H2, ?H3.
  - exact (conj Hu (conj Hc (conj Hd Ha))).
  - assert (Hsize : size (<[k := aplicar c op]> (m_contas m)) = size (m_contas m)).
    { apply map_size_insert_Some. eauto. }
    assert (Hsome : forall j, is_Some (<[k := aplicar c op]> (m_contas m) !! j)
                              <-> is_Some (m_contas m !! j)).
    { intros j. rewrite lookup_insert_is_Some.
      split; [intros [<-|[_ H]]; eauto | intros H].
      destruct (decide (k = j)); auto. }
    split; [assumption|]. split; [|split].
    + intros j cj Hj. destruct (decide (k = j)) as [<-|Hne].
      * rewrite lookup_insert_eq in Hj. injection Hj as <-.
        destruct (Hc k c Hkc) as (C1 & C2 & C3 & C4).
        destruct (aplicar_casos op c) as (A1 & A2 & A3 & _).
        rewrite A1, A2, A3.
        split; [assumption|]. split; [assumption|]. split; [assumption|].
        apply (aplicar_contagem_limitada limite_saques_dia op c);
          [destruct op; simpl in *; tauto | unfold limite_saques_dia in *; lia].
      * rewrite lookup_insert_ne in Hj by assumption. auto.
    + intros j. rewrite Hsome, Hsize. apply Hd.
    + intros j Hj. apply Hsome. auto.
  - destruct (cadastrar_coerente (m_usuarios m) p Hu) as (Q1 & Q2).
    split; [assumption|]. split; [|exact (conj Hd Ha)].
    intros j cj Hj. destruct (Hc j cj Hj) as (C1 & C2 & [u C3] & C4).
    split; [assumption|]. split; [assumption|]. split; [|assumption].
    exists u. now apply Q2.
  - split; [assumption|].
    destruct (abrir_casos (m_usuarios m) (m_contas m) x (Z.of_nat (size (m_contas m))))
      as [->|[Hreg ->]]; [lia | assumption | exact (conj Hc (conj Hd Ha)) |].
    assert (Hnone : m_contas m !! (Z.of_nat (size (m_contas m)) + 1) = None).
    { destruct (m_contas m !! _) eqn:E; [|reflexivity].
      assert (is_Some (m_contas m !! (Z.of_nat (size (m_contas m)) + 1))) as Hs by eauto.
      apply Hd in Hs. lia. }
    split; [|split].
    + intros j cj Hj. apply lookup_insert_Some in Hj as [[<- <-]|[_ Hj]]; [|auto].
      simpl. split; [reflexivity|]. split; [reflexivity|]. split; [assumption|].
      unfold limite_saques_dia; lia.
    + intros j. rewrite map_size_insert_None by assumption.
      rewrite lookup_insert_is_Some, Hd. lia.
    + intros j Hj. rewrite lookup_insert_is_Some. right.
      split; [|auto]. intros <-. apply Ha in Hj as [y Hy]. congruence.
  - split; [assumption|]. split; [assumption|]. split; assumption.
Qed.

Lemma mundo_inicial_coerente (entrada : list string) :
  mundo_coerente (fst (print txt_bem_vindo (mundo_inicial entrada))).
Proof.
  split; [apply map_Forall_empty|]. simpl. split; [|split].
  - intros k c Hk. now rewrite lookup_empty in Hk.
  - intros k. rewrite lookup_empty, map_size_empty. simpl.
    split; [intros [x Hx]; discriminate | lia].
  - intros k [=].
Qed.

Lemma laco_coerente (voltas : nat) :
  forall m, mundo_coerente m -> mundo_coerente (fst (laco tempo voltas m)).
Proof.
  induction voltas as [|n IH]; intros m Hm; simpl; [assumption|].
  pose proof (transicao_coerente _ _ Hm (volta_transicao m)) as H.
  destruct (volta tempo m) as [m' []]; simpl in *; auto.
Qed.

(** X11.  Whatever is typed, [main] ends with its registries in order:
    each holder under its own identifier; each account under its own
    number, in agency 0001, with a registered holder and a count of
    withdrawals between 0 and 3; the numbers in use being 1 to the number
    of accounts; and the account in use being one of the registry. *)
Theorem main_mantem_os_registros_em_ordem (entrada : list string) :
  mundo_coerente (fst (main tempo entrada)).
Proof. apply laco_coerente, mundo_inicial_coerente. Qed.

(** *** The end of the run *)

Lemma so_le_seguir {A B : Type} (s : Sessao A) (k : A -> Sessao B) :
  so_le s -> (forall a, so_le (k a)) -> so_le (seguir s k).
Proof.
  intros Hs Hk m. unfold seguir. specialize (Hs m).
  destruct (s m) as [m1 [a|f]]; simpl in *; [|assumption].
  specialize (Hk a m1). now transitivity (m_entrada m1).
Qed.

Lemma so_le_print texto : so_le (print texto).
Proof. intros m. reflexivity. Qed.

Lemma so_le_input msg : so_le (input msg).
Proof.
  intros m. unfold input. destruct (m_entrada m); simpl; [reflexivity|].
  now apply suffix_cons_r.
Qed.

Lemma so_le_feito {A : Type} (a : A) : so_le (feito a).
Proof. intros m. reflexivity. Qed.

Lemma so_le_falhar {A : Type} (f : falha) : so_le (@falhar A f).
Proof. intros m. reflexivity. Qed.

Lemma so_le_ver : so_le ver.
Proof. intros m. reflexivity. Qed.

Lemma so_le_input_float msg : so_le (_input_float msg).
Proof.
  unfold _input_float. apply so_le_seguir; [apply so_le_input|].
  intros linha. destruct (py_float _); [apply so_le_feito | apply so_le_falhar].
Qed.

Lemma so_le_na_conta {A : Type} k c (f : Efeito Conta A) g : so_le (na_conta k c f g).
Proof. intros m. unfold na_conta. destruct (f c). reflexivity. Qed.

Lemma so_le_nos_usuarios {A : Type} (f : Efeito (gmap string Usuario) A) :
  so_le (nos_usuarios f).
Proof. intros m. unfold nos_usuarios. destruct (f _). reflexivity. Qed.

Lemma so_le_nas_contas {A : Type} (f : Efeito (gmap Z Conta) A) :
  so_le (nas_contas f).
Proof. intros m. unfold nas_contas. destruct (f _). reflexivity. Qed.

Lemma so_le_definir v : so_le (definir_conta_atual v).
Proof. intros m. reflexivity. Qed.

Ltac so_le_tac :=
  repeat first
    [ apply so_le_print | apply so_le_input | apply so_le_feito
    | apply so_le_falhar | apply so_le_ver | apply so_le_input_float
    | apply so_le_na_conta | apply so_le_nos_usuarios
    | apply so_le_nas_contas | apply so_le_definir
    | apply so_le_seguir; [|intro]
    | match goal with
      | |- so_le (if ?b then _ else _) => destruct b
      | |- so_le (match ?x with _ => _ end) => destruct x
      | |- so_le (let '(_, _) := ?x in _) => destruct x
      end ].

(** A command only takes lines from the front of the input. *)
Lemma so_le_comando (opcao : string) : so_le (comando tempo opcao).
Proof. unfold comando. so_le_tac. Qed.

(** A turn leaves a part of the input that was there, and a shorter one
    when the loop goes on. *)
Lemma volta_entrada (m : Mundo) :
  suffix (m_entrada (fst (volta tempo m))) (m_entrada m)
  /\ (snd (volta tempo m) = true ->
      (length (m_entrada (fst (volta tempo m))) < length (m_entrada m))%nat).
Proof.
  unfold volta, input.
  destruct (m_entrada m) as [|linha resto]; simpl.
  { split; [reflexivity | discriminate]. }
  destruct (String.eqb _ "q"); simpl.
  { split; [now apply suffix_cons_r | discriminate]. }
  match goal with |- context [comando tempo ?o ?w] =>
    pose proof (so_le_comando o w) as H; destruct (comando tempo o w) as [m2 [[]|f]]
  end; simpl in *; (split; [now apply suffix_cons_r|]);
    intros _; apply suffix_length in H; lia.
Qed.

(** A turn after which the loop stops has written a farewell. *)
Lemma volta_despedida (m m' : Mundo) :
  volta tempo m = (m', false) ->
  last (m_saida m') = Some (txt_ate_logo +:+ nl)
  \/ last (m_saida m') = Some (txt_obrigado +:+ nl).
Proof.
  unfold volta, input.
  destruct (m_entrada m) as [|linha resto] eqn:E; simpl.
  - intros [= <-]. left. simpl. apply last_snoc.
  - destruct (String.eqb _ "q").
    + intros [= <-]. right. simpl. apply last_snoc.
    + destruct (comando tempo _ _) as [m2 [[]|f]]; discriminate.
Qed.

Lemma laco_termina (voltas : nat) :
  forall m, (length (m_entrada m) < voltas)%nat ->
    snd (laco tempo voltas m) = true
    /\ (last (m_saida (fst (laco tempo voltas m))) = Some (txt_ate_logo +:+ nl)
        \/ last (m_saida (fst (laco tempo voltas m))) = Some (txt_obrigado +:+ nl)).
Proof.
  induction voltas as [|n IH]; intros m Hm; [lia|]. simpl.
  destruct (volta tempo m) as [m' []] eqn:E.
  - apply IH. pose proof (proj2 (volta_entrada m)) as H. rewrite E in H.
    specialize (H eq_refl). simpl in H. lia.
  - simpl. split; [reflexivity|]. now apply volta_despedida in E.
Qed.

(** X12.  [main] ends on every input that ends: the loop stops within as
    many turns as there are lines typed, plus one, and the last thing
    written is one of the two farewells. *)
Theorem main_termina_com_despedida (entrada : list string) :
  snd (main tempo entrada) = true
  /\ (last (m_saida (fst (main tempo entrada))) = Some (txt_ate_logo +:+ nl)
      \/ last (m_saida (fst (main tempo entrada))) = Some (txt_obrigado +:+ nl)).
Proof. unfold main. apply laco_termina. simpl. lia. Qed.

(** *** What a run never loses *)

Lemma conserva_refl (m : Mundo) : conserva m m.
Proof.
  split; [auto|]. intros j c Hj. exists c, []. rewrite app_nil_r. auto.
Qed.

Lemma conserva_trans (m1 m2 m3 : Mundo) :
  conserva m1 m2 -> conserva m2 m3 -> conserva m1 m3.
Proof.
  intros [U1 C1] [U2 C2]. split; [auto|].
  intros j c Hj. destruct (C1 j c Hj) as (c2 & n2 & H2 & A2 & B2 & D2 & E2).
  destruct (C2 j c2 H2) as (c3 & n3 & H3 & A3 & B3 & D3 & E3).
  exists c3, (n2 ++ n3)%list. rewrite E3, E2, app_assoc.
  repeat split; congruence.
Qed.

Lemma transicao_conserva (m m' : Mundo) : transicao m m' -> conserva m m'.
Proof.
  intros [H1 H2 H3|k c op Hk Hkc Hop Hpv H1 H2 H3|p H1 H2 H3|x H1 H2 H3|v H1 H2 H3 H4];
    unfold conserva; rewrite ?H1, ?H2.
  - apply conserva_refl.
  - split; [auto|]. intros j cj Hj. destruct (decide (k = j)) as [<-|Hne].
    + rewrite lookup_insert_eq. assert (cj = c) as -> by congruence.
      destruct (aplicar_casos op c) as (A1 & A2 & A3 & A4).
      destruct (aceita op c).
      * destruct A4 as [linha A4]. exists (aplicar c op), [linha]. auto.
      * destruct A4 as [A4 _]. exists (aplicar c op), []. rewrite app_nil_r. auto.
    + rewrite lookup_insert_ne by assumption. exists cj, [].
      rewrite app_nil_r. auto.
  - split; [|apply conserva_refl].
    intros k u Hk. destruct (cadastrar_casos (m_usuarios m) p) as [->|(u' & Hn & _ & _ & ->)];
      [assumption|].
    rewrite lookup_insert_ne; [assumption|]. intros <-. congruence.
  - split; [auto|]. intros j cj Hj. exists cj, []. rewrite app_nil_r.
    split; [|auto]. now apply abrir_preserva.
  - apply conserva_refl.
Qed.

(** X13.  The loop never loses anything: from any state, after any number
    of turns, every holder is registered as before, and every account is
    under its number with the agency, number and holder it had and with
    its log extended at the end only. *)
Theorem laco_conserva (voltas : nat) (m : Mundo) :
  conserva m (fst (laco tempo voltas m)).
Proof.
  revert m. induction voltas as [|n IH]; intros m; simpl; [apply conserva_refl|].
  pose proof (transicao_conserva _ _ (volta_transicao m)) as H.
  destruct (volta tempo m) as [m' []]; simpl in *; [|assumption].
  eapply conserva_trans; [exact H | apply IH].
Qed.

(** X14.  A turn of the loop leaves every account other than the one in
    use exactly as it was. *)
Theorem volta_nao_toca_nas_outras_contas (m : Mundo) (j : Z) (c : Conta) :
  m_contas m !! j = Some c ->
  m_conta_atual m <> Some j ->
  m_contas (fst (volta tempo m)) !! j = Some c.
Proof.
  intros Hj Hne.
  destruct (volta_transicao m)
    as [H1 H2 H3|k ck op Hk Hkc Hop Hpv H1 H2 H3|p H1 H2 H3|x H1 H2 H3|v H1 H2 H3 H4];
    rewrite H2; try assumption.
  - rewrite lookup_insert_ne; [assumption|]. intros <-. congruence.
  - now apply abrir_preserva.
Qed.

(** *** Balances in a run *)

Lemma transicao_saldos_bons (m m' : Mundo) :
  Forall (fun l => linha_finita l = true) (m_entrada m) ->
  transicao m m' -> saldos_bons m -> saldos_bons m'.
Proof.
  intros Hin
    [H1 H2 H3|k c op Hk Hkc Hop Hpv H1 H2 H3|p H1 H2 H3|x H1 H2 H3|v H1 H2 H3 H4] Hs;
    unfold saldos_bons; rewrite ?H2; try exact Hs.
  - intros j cj Hj. destruct (decide (k = j)) as [<-|Hne].
    + rewrite lookup_insert_eq in Hj. injection Hj as <-.
      destruct Hpv as (l & Hl & Hv).
      rewrite Forall_forall in Hin. specialize (Hin l Hl).
      unfold linha_finita in Hin. rewrite Hv in Hin.
      apply aplicar_saldo_bom; [destruct op; exact Hin | now apply (Hs k)].
    + rewrite lookup_insert_ne in Hj by assumption. now apply (Hs j).
  - intros j cj Hj. unfold abrir in Hj.
    destruct (m_usuarios m !! somente_digitos x) as [u|] eqn:E.
    + rewrite criar_conta_eq in Hj by (rewrite E; eauto).
      destruct (proximo_numero (m_contas m)) as [n|e]; simpl in Hj; [|now apply (Hs j)].
      apply lookup_insert_Some in Hj as [[_ <-]|[_ Hj]]; [reflexivity | now apply (Hs j)].
    + rewrite criar_conta_desconhecido in Hj by assumption. now apply (Hs j).
Qed.

Lemma laco_saldos_bons (voltas : nat) :
  forall m, Forall (fun l => linha_finita l = true) (m_entrada m) ->
            saldos_bons m -> saldos_bons (fst (laco tempo voltas m)).
Proof.
  induction voltas as [|n IH]; intros m Hin Hs; simpl; [assumption|].
  pose proof (transicao_saldos_bons _ _ Hin (volta_transicao m) Hs) as H.
  pose proof (proj1 (volta_entrada m)) as [antes Hsuf].
  destruct (volta tempo m) as [m' []]; simpl in *; [|assumption].
  apply IH; [|assumption]. rewrite Hsuf in Hin. now apply Forall_app in Hin.
Qed.

(** X15.  When no line typed reads as an amount that is NaN or infinite,
    every account that [main] ends with has a balance that is a number
    and is not below zero. *)
Theorem main_saldos_nao_negativos (entrada : list string) :
  Forall (fun l => linha_finita l = true) entrada ->
  forall k c, m_contas (fst (main tempo entrada)) !! k = Some c ->
              fle fzero (saldo c) = true.
Proof.
  intros Hin k c Hk.
  assert (H : saldos_bons (fst (main tempo entrada))).
  { apply laco_saldos_bons; [exact Hin|]. intros j cj Hj.
    simpl in Hj. now rewrite lookup_empty in Hj. }
  specialize (H k c Hk). unfold saldo_bom in H.
  now apply andb_true_iff in H as [_ H].
Qed.

(** X16.  Asking for an account number that is not in use drops the
    account in use: after the turn there is no account in use, even if
    there was one, the registries are as they were, and the loop goes on
    after the notice that the account was not found. *)
Theorem acesso_a_conta_inexistente (m : Mundo) (escolha linha : string)
    (resto : list string) (n : Z) :
  m_entrada m = escolha :: linha :: resto ->
  lower (strip escolha) = "ac" ->
  m_contas m <> ∅ ->
  py_int (strip linha) = Some n ->
  m_contas m !! n = None ->
  let m' := fst (volta tempo m) in
  snd (volta tempo m) = true
  /\ m_conta_atual m' = None
  /\ m_usuarios m' = m_usuarios m /\ m_contas m' = m_contas m
  /\ m_entrada m' = resto
  /\ m_saida m'
     = (m_saida m ++ [MENU; txt_numero_conta; txt_conta_nao_encontrada +:+ nl])%list.
Proof.
  intros He Hac Hne Hn Hnone. cbv zeta.
  unfold volta, input. rewrite He. cbv zeta. rewrite Hac.
  change (String.eqb "ac" "q") with false. cbv iota.
  unfold comando, seguir, ver, input. simpl.
  rewrite bool_decide_false by assumption. simpl.
  rewrite Hn. simpl. rewrite Hnone. simpl.
  rewrite <- !app_assoc. simpl. repeat split; reflexivity.
Qed.

End PropriedadesDaExecucao.

(** ** The properties at work on the examples *)

#[local] Existing Instance runtime_py.

(** C1, as first stated, fails here.  A withdrawal of 10.00 from an empty
    account, on the day after its third withdrawal: it fails for lack of
    funds, and the count and its reference date are no longer what they
    were. *)
Lemma C1_failed_withdrawal_resets_counter :
  let r := sacar_da_conta relogio_dia_4 relogio_dia_4 (float_de_inteiro 10)
                          (float_de_inteiro 500) 3 conta_vazia_dia_3 in
  snd r = Levanta (ValueError msg_saldo_insuficiente)
  /\ numero_saques_hoje conta_vazia_dia_3 = 3
  /\ numero_saques_hoje (fst r) = 0
  /\ data_referencia_saques conta_vazia_dia_3 = Some (mk_date 2026 11 3)
  /\ data_referencia_saques (fst r) = Some (mk_date 2026 11 4)
  /\ fst r <> conta_vazia_dia_3.
Proof.
  vm_compute. repeat split. discriminate.
Qed.

Lemma C1_failure_keeps_balance_and_log_witness :
  conta_dia_3 = conta_dia_3
  /\ (let c' := conta_apos_reset relogio_dia_4 conta_dia_3 in
      saldo c' = saldo conta_dia_3 /\ extrato c' = extrato conta_dia_3
      /\ c' = conta_apos_reset relogio_dia_4 conta_dia_3
      /\ (data_referencia_saques conta_dia_3 = Some (_hoje relogio_dia_4) ->
          c' = conta_dia_3)
      /\ (data_referencia_saques conta_dia_3 <> Some (_hoje relogio_dia_4) ->
          numero_saques_hoje c' = 0
          /\ data_referencia_saques c' = Some (_hoje relogio_dia_4)))
  /\ (sacar_da_conta relogio_dia_4 relogio_dia_4 (float_de_inteiro 2000)
                     (float_de_inteiro 500) 3 conta_dia_3
      = (conta_apos_reset relogio_dia_4 conta_dia_3,
         Levanta (ValueError msg_saldo_insuficiente))
      /\ error_kind (ValueError msg_saldo_insuficiente) = Some InsufficientFundsError).
Proof.
  destruct (@C1_failure_keeps_balance_and_log runtime_py) as (H1 & H2 & H3).
  split; [|split].
  - apply (H1 relogio_dia_4 fzero conta_dia_3 conta_dia_3
              (ValueError msg_deposito_positivo)).
    vm_compute. reflexivity.
  - apply (H2 relogio_dia_4 relogio_dia_4 (float_de_inteiro 2000)
              (float_de_inteiro 500) 3 conta_dia_3 _
              (ValueError msg_saldo_insuficiente)).
    vm_compute. reflexivity.
  - apply H3; vm_compute; reflexivity.
Defined.

Lemma C2_validation_order_witness :
  (snd (sacar_da_conta relogio_dia_3 relogio_dia_3 (float_de_inteiro (-5))
                       (float_de_inteiro 500) 3 conta_vazia_dia_3)
   = Levanta (ValueError msg_saque_positivo)
   /\ error_kind (ValueError msg_saque_positivo) = Some ValidationError)
  /\ (snd (sacar_da_conta relogio_dia_3 relogio_dia_3 (float_de_inteiro 600)
                          (float_de_inteiro 500) 3 conta_vazia_dia_3)
      = Levanta (ValueError msg_saldo_insuficiente)
      /\ error_kind (ValueError msg_saldo_insuficiente) = Some InsufficientFundsError)
  /\ (snd (sacar_da_conta relogio_dia_3 relogio_dia_3 (float_de_inteiro 600)
                          (float_de_inteiro 500) 3 conta_dia_3)
      = Levanta (ValueError msg_excede_limite)
      /\ error_kind (ValueError msg_excede_limite) = Some LimitExceededError)
  /\ (snd (sacar_da_conta relogio_dia_3 relogio_dia_3 (float_de_inteiro 100)
                          (float_de_inteiro 500) 3 conta_dia_3)
      = Levanta (ValueError msg_limite_saques)
      /\ error_kind (ValueError msg_limite_saques) = Some LimitExceededError).
Proof.
  split; [|split; [|split]].
  - apply (C2_validation_order relogio_dia_3 relogio_dia_3 (float_de_inteiro (-5))
             (float_de_inteiro 500) 3 conta_vazia_dia_3).
    vm_compute. reflexivity.
  - apply (C2_validation_order relogio_dia_3 relogio_dia_3 (float_de_inteiro 600)
             (float_de_inteiro 500) 3 conta_vazia_dia_3);
      vm_compute; reflexivity.
  - apply (C2_validation_order relogio_dia_3 relogio_dia_3 (float_de_inteiro 600)
             (float_de_inteiro 500) 3 conta_dia_3);
      vm_compute; reflexivity.
  - apply (C2_validation_order relogio_dia_3 relogio_dia_3 (float_de_inteiro 100)
             (float_de_inteiro 500) 3 conta_dia_3);
      vm_compute; try reflexivity. discriminate.
Defined.

Lemma C3_withdrawal_success_witness :
  exists c',
    sacar_da_conta relogio_dia_4 relogio_dia_4 (float_de_inteiro 100)
                   (float_de_inteiro 500) 3 conta_dia_3 = (c', Retorna tt)
    /\ saldo c' = float_de_inteiro 900
    /\ numero_saques_hoje c' = 1
    /\ extrato c' = ["04/11/2026 09:05 | SAQUE      | -R$ 100,00 | Saldo: R$ 900,00"]
    /\ exists c'',
        sacar_da_conta relogio_dia_4 relogio_dia_4 (float_de_inteiro 100)
                       (float_de_inteiro 500) 3 c' = (c'', Retorna tt)
        /\ c'' <> c'
        /\ saldo c'' = float_de_inteiro 800
        /\ numero_saques_hoje c'' = 2.
Proof.
  destruct (C3_withdrawal_success relogio_dia_4 relogio_dia_4 (float_de_inteiro 100)
              (float_de_inteiro 500) 3 conta_dia_3)
    as (c' & H & Hs & Hn & He & _ & _ & _ & _ & Hreplay);
    [vm_compute; reflexivity ..|].
  exists c'. split; [exact H|].
  split; [rewrite Hs; vm_compute; reflexivity|].
  split; [rewrite Hn; vm_compute; reflexivity|].
  split; [rewrite He; vm_compute; reflexivity|].
  destruct (Hreplay relogio_dia_4 relogio_dia_4) as (c'' & H2 & Hne & Hs2 & Hn2 & _).
  - reflexivity.
  - rewrite Hs. vm_compute. reflexivity.
  - rewrite Hn. vm_compute. reflexivity.
  - exists c''. split; [exact H2|]. split; [exact Hne|].
    split; [rewrite Hs2, Hs; vm_compute; reflexivity|].
    rewrite Hn2, Hn. vm_compute. reflexivity.
Defined.



Lemma C5_deposit_witness :
  (depositar_na_conta relogio_dia_4 (float_de_inteiro (-1)) conta_dia_3
   = (conta_dia_3, Levanta (ValueError msg_deposito_positivo))
   /\ error_kind (ValueError msg_deposito_positivo) = Some ValidationError)
  /\ (exists c',
      depositar_na_conta relogio_dia_4 (float_de_inteiro 250) conta_dia_3
      = (c', Retorna tt)
      /\ saldo c' = float_de_inteiro 1250
      /\ extrato c'
         = ["04/11/2026 09:05 | DEP" +:+ codigo 211 +:+ "SITO   | +R$ 250,00 | Saldo: R$ 1.250,00"])
  /\ (exists c',
      depositar_na_conta relogio_dia_4 (S754_infinity false) conta_dia_3
      = (c', Retorna tt)
      /\ saldo c' = S754_infinity false).
Proof.
  split; [|split].
  - apply (C5_deposit relogio_dia_4 (float_de_inteiro (-1)) conta_dia_3).
    vm_compute. reflexivity.
  - destruct (proj2 (C5_deposit relogio_dia_4 (float_de_inteiro 250) conta_dia_3))
      as (c' & H & Hs & He & _); [vm_compute; reflexivity|].
    exists c'. split; [exact H|].
    split; [rewrite Hs | rewrite He]; vm_compute; reflexivity.
  - destruct (proj2 (C5_deposit relogio_dia_4 (S754_infinity false) conta_dia_3))
      as (c' & H & Hs & _); [vm_compute; reflexivity|].
    exists c'. split; [exact H|]. rewrite Hs. vm_compute. reflexivity.
Defined.

(** C6, at the input where the program breaks it.  A new account receives
    a deposit of NaN (the text nan, read by [float]): the deposit is
    accepted, the balance is NaN afterwards, which is not greater than or
    equal to zero, and a withdrawal of 500.00 from that account, which
    never received money, is accepted too.  With amounts that are finite
    numbers the balance stays at or above zero
    ([saldo_nao_negativo_com_quantias_finitas]). *)
Lemma C6_nan_deposit_accepted :
  snd (criar_conta "529.982.247-25" usuarios_ana ∅) = Retorna conta_nova
  /\ exists c1 c2,
      depositar_na_conta relogio_dia_4 S754_nan conta_nova = (c1, Retorna tt)
      /\ saldo c1 = S754_nan
      /\ fle fzero (saldo c1) = false
      /\ aplicar_todas [OpDeposito relogio_dia_4 S754_nan] conta_nova = c1
      /\ sacar_da_conta relogio_dia_4 relogio_dia_4 (float_de_inteiro 500)
                        (float_de_inteiro 500) 3 c1 = (c2, Retorna tt)
      /\ fle fzero (saldo c2) = false.
Proof.
  split; [vm_compute; reflexivity|].
  do 2 eexists. split; [vm_compute; reflexivity|].
  split; [reflexivity|]. split; [reflexivity|]. split; [reflexivity|].
  split; [vm_compute; reflexivity | reflexivity].
Qed.

Lemma C7_sequential_account_numbers_witness :
  criar_conta "529.982.247-25" usuarios_ana ∅
  = ({[ 1 := conta_nova ]}, Retorna conta_nova)
  /\ (exists maior,
      is_Some (({[ 7 := conta_nova ]} : gmap Z Conta) !! maior)
      /\ (forall k, is_Some (({[ 7 := conta_nova ]} : gmap Z Conta) !! k) -> k <= maior)
      /\ criar_conta "52998224725" usuarios_ana {[ 7 := conta_nova ]}
         = (<[maior + 1 := Conta_init "0001" (maior + 1) "52998224725"]>
              {[ 7 := conta_nova ]},
            Retorna (Conta_init "0001" (maior + 1) "52998224725")))
  /\ (exists c1 c2 c3 contas1 contas2 contas3,
      criar_conta "52998224725" usuarios_ana ∅ = (contas1, Retorna c1)
      /\ criar_conta "529.982.247-25" usuarios_ana contas1 = (contas2, Retorna c2)
      /\ criar_conta "529 982 247 25" usuarios_ana contas2 = (contas3, Retorna c3)
      /\ numero c1 = 1 /\ numero c2 = 2 /\ numero c3 = 3
      /\ contas3 !! 1 = Some c1 /\ contas3 !! 2 = Some c2
      /\ contas3 !! 3 = Some c3)
  /\ (criar_conta "111" usuarios_ana {[ 7 := conta_nova ]}
      = ({[ 7 := conta_nova ]}, Levanta (ValueError msg_usuario_nao_encontrado))
      /\ error_kind (ValueError msg_usuario_nao_encontrado) = Some NotFoundError
      /\ proximo_numero (fst (criar_conta "111" usuarios_ana {[ 7 := conta_nova ]}))
         = proximo_numero {[ 7 := conta_nova ]}).
Proof.
  assert (Hana : forall texto, somente_digitos texto = "52998224725" ->
                               is_Some (usuarios_ana !! somente_digitos texto)).
  { intros texto ->. exists ana. vm_compute. reflexivity. }
  destruct C7_sequential_account_numbers as (H1 & H2 & H3 & H4).
  split; [|split; [|split]].
  - apply (H1 "529.982.247-25" usuarios_ana). now apply Hana.
  - apply (H2 "52998224725" usuarios_ana {[ 7 := conta_nova ]}).
    + now apply Hana.
    + apply insert_non_empty.
  - apply (H3 "52998224725" "529.982.247-25" "529 982 247 25"
              usuarios_ana usuarios_ana usuarios_ana); now apply Hana.
  - apply (H4 "111" usuarios_ana {[ 7 := conta_nova ]}). vm_compute. reflexivity.
Defined.

Lemma C8_registration_uniqueness_witness :
  (criar_usuario "Bia" "02/03/1999" "sem cpf" "Rua B" usuarios_ana
   = (usuarios_ana, Levanta (ValueError msg_cpf_invalido))
   /\ error_kind (ValueError msg_cpf_invalido) = Some ValidationError)
  /\ (criar_usuario "Bia" "02/03/1999" "529.982.247-25" "Rua B" usuarios_ana
      = (usuarios_ana, Levanta (ValueError msg_cpf_duplicado))
      /\ error_kind (ValueError msg_cpf_duplicado) = Some DuplicateError)
  /\ (exists usuarios' u,
      criar_usuario " Caio " "29/02/2024" "123.456.789-00" "Rua C" usuarios_ana
      = (usuarios', Retorna u)
      /\ cpf u = "12345678900"
      /\ criar_usuario "Dora" "31/12/1980" "12345678900" "Rua D" usuarios'
         = (usuarios', Levanta (ValueError msg_cpf_duplicado)))
  /\ (exists usuarios' u,
      criar_usuario "Dora" "31/12/1980" "12345678900" "Rua D" usuarios_ana
      = (usuarios', Retorna u)
      /\ cpf u = "12345678900"
      /\ criar_usuario " Caio " "29/02/2024" "123.456.789-00" "Rua C" usuarios'
         = (usuarios', Levanta (ValueError msg_cpf_duplicado))).
Proof.
  destruct (@C8_registration_uniqueness runtime_py) as (_ & H2 & H3 & _ & H5).
  split; [|split; [|split]].
  - apply H2. vm_compute. reflexivity.
  - apply H3.
    + vm_compute. discriminate.
    + exists ana. vm_compute. reflexivity.
  - do 2 eexists. split; [vm_compute; reflexivity|].
    eapply (H5 " Caio " "29/02/2024" "123.456.789-00" "Rua C"
               "Dora" "31/12/1980" "12345678900" "Rua D" usuarios_ana).
    + left. split; reflexivity.
    + vm_compute. reflexivity.
  - do 2 eexists. split; [vm_compute; reflexivity|].
    eapply (H5 "Dora" "31/12/1980" "12345678900" "Rua D"
               " Caio " "29/02/2024" "123.456.789-00" "Rua C" usuarios_ana).
    + right. split; reflexivity.
    + vm_compute. reflexivity.
Defined.

Lemma C9_statement_pure_read_witness :
  extrato_da_conta conta_nova
  = (conta_nova,
     Retorna (nl +:+ "========== EXTRATO ==========" +:+ nl
              +:+ "(Sem movimenta" +:+ codigo 231 +:+ codigo 245 +:+ "es)" +:+ nl
              +:+ "Saldo atual: R$ 0,00" +:+ nl
              +:+ "=============================" +:+ nl)).
Proof.
  rewrite (proj2 (C9_statement_pure_read conta_nova)); reflexivity.
Defined.

Lemma C10_duplicate_check_before_birth_date_witness :
  (criar_usuario "Bia" "31/02/1999" "529.982.247-25" "Rua B" usuarios_ana
   = (usuarios_ana, Levanta (ValueError msg_cpf_duplicado))
   /\ error_kind (ValueError msg_cpf_duplicado) = Some DuplicateError)
  /\ (criar_usuario "Bia" "31/02/1999" "123.456.789-00" "Rua B" usuarios_ana
      = (usuarios_ana, Levanta (ValueError msg_data_invalida))
      /\ error_kind (ValueError msg_data_invalida) = Some ValidationError
      /\ fst (criar_usuario "Bia" "31/02/1999" "123.456.789-00" "Rua B" usuarios_ana)
           !! somente_digitos "123.456.789-00" = None).
Proof.
  destruct (@C10_duplicate_check_before_birth_date runtime_py) as (H1 & H2).
  split.
  - apply H1.
    + vm_compute. discriminate.
    + exists ana. vm_compute. reflexivity.
  - apply H2; vm_compute; try reflexivity. discriminate.
Defined.

(** ** The further properties at work on the examples *)

#[local] Existing Instance leitor_py.

Lemma consulta_apos_cadastro_witness :
  criar_usuario "Bia" "02/03/1999" "123.456.789-00" "Rua B" usuarios_ana
  = (<["12345678900" := bia]> usuarios_ana, Retorna bia)
  /\ filtrar_usuario_por_cpf "123 456 789 00" usuarios_ana = None
  /\ filtrar_usuario_por_cpf "123 456 789 00" (<["12345678900" := bia]> usuarios_ana)
     = Some bia.
Proof.
  assert (H : criar_usuario "Bia" "02/03/1999" "123.456.789-00" "Rua B" usuarios_ana
              = (<["12345678900" := bia]> usuarios_ana, Retorna bia))
    by (vm_compute; reflexivity).
  split; [exact H|].
  destruct (consulta_apos_cadastro "Bia" "02/03/1999" "123.456.789-00" "Rua B"
              "123 456 789 00" usuarios_ana _ _ H) as (H1 & _ & _).
  apply (H1 bia); reflexivity.
Defined.

Lemma cadastros_coerentes_witness :
  registro_coerente usuarios_ana
  /\ registro_coerente (cadastrar_todos cadastros_exemplo usuarios_ana)
  /\ (forall k u, usuarios_ana !! k = Some u ->
                  cadastrar_todos cadastros_exemplo usuarios_ana !! k = Some u)
  /\ (size usuarios_ana <= size (cadastrar_todos cadastros_exemplo usuarios_ana)
      <= size usuarios_ana + length cadastros_exemplo)%nat.
Proof.
  assert (H : registro_coerente usuarios_ana).
  { apply map_Forall_singleton. vm_compute.
    split; [discriminate | split; reflexivity]. }
  split; [exact H|].
  apply (cadastros_coerentes cadastros_exemplo usuarios_ana H).
Defined.

Lemma criar_conta_numero_novo_witness :
  is_Some (usuarios_ana !! somente_digitos "529.982.247-25")
  /\ exists n,
      criar_conta "529.982.247-25" usuarios_ana {[ 7 := conta_nova ]}
      = (<[n := Conta_init "0001" n (somente_digitos "529.982.247-25")]>
           {[ 7 := conta_nova ]},
         Retorna (Conta_init "0001" n (somente_digitos "529.982.247-25")))
      /\ ({[ 7 := conta_nova ]} : gmap Z Conta) !! n = None
      /\ (forall k, is_Some (({[ 7 := conta_nova ]} : gmap Z Conta) !! k) -> k < n)
      /\ (forall k c, ({[ 7 := conta_nova ]} : gmap Z Conta) !! k = Some c ->
            fst (criar_conta "529.982.247-25" usuarios_ana {[ 7 := conta_nova ]}) !! k
            = Some c)
      /\ size (fst (criar_conta "529.982.247-25" usuarios_ana {[ 7 := conta_nova ]}))
         = S (size ({[ 7 := conta_nova ]} : gmap Z Conta)).
Proof.
  assert (H : is_Some (usuarios_ana !! somente_digitos "529.982.247-25")).
  { exists ana. vm_compute. reflexivity. }
  split; [exact H|].
  apply (criar_conta_numero_novo "529.982.247-25" usuarios_ana {[ 7 := conta_nova ]} H).
Defined.

Lemma abrir_todas_numeros_witness :
  Forall (fun c => is_Some (usuarios_ana !! somente_digitos c))
         ["52998224725"; "529.982.247-25"]
  /\ abrir_todas ["52998224725"; "529.982.247-25"] usuarios_ana ∅ !! 2
     = Some (Conta_init "0001" 2 "52998224725")
  /\ abrir_todas ["52998224725"; "529.982.247-25"] usuarios_ana ∅ !! 3 = None.
Proof.
  assert (H : Forall (fun c => is_Some (usuarios_ana !! somente_digitos c))
                     ["52998224725"; "529.982.247-25"]).
  { repeat constructor; exists ana; vm_compute; reflexivity. }
  split; [exact H|]. split.
  - exact (abrir_todas_numeros ["52998224725"; "529.982.247-25"] usuarios_ana H 2).
  - exact (abrir_todas_numeros ["52998224725"; "529.982.247-25"] usuarios_ana H 3).
Defined.

Lemma listar_contas_em_ordem_witness :
  duas_contas <> ∅
  /\ exists itens,
      (forall k c, (k, c) ∈ itens <-> duas_contas !! k = Some c)
      /\ StronglySorted (fun x y => x.1 < y.1) itens
      /\ length itens = size duas_contas
      /\ listar_contas duas_contas usuarios_ana
         = cabecalho_contas
           +:+ linhas_em_ordem ((fun x => linha_conta usuarios_ana x.2) <$> itens)
           +:+ nl +:+ rodape_contas.
Proof.
  assert (H : duas_contas <> ∅) by apply insert_non_empty.
  split; [exact H|].
  apply (proj2 (listar_contas_em_ordem duas_contas usuarios_ana) H).
Defined.

Lemma contagem_dentro_do_limite_witness :
  0 <= numero_saques_hoje (aplicar_todas sessao_exemplo (Conta_init "0001" 1 "52998224725"))
    <= Z.max 0 3.
Proof.
  apply (contagem_dentro_do_limite 3 sessao_exemplo "0001" 1 "52998224725").
  repeat constructor.
Defined.

Lemma saques_de_um_dia_witness :
  numero_saques_hoje (aplicar_todas sessao_exemplo (Conta_init "0001" 1 "52998224725"))
  = Z.of_nat (saques_aceitos sessao_exemplo (Conta_init "0001" 1 "52998224725"))
  /\ Z.of_nat (saques_aceitos sessao_exemplo (Conta_init "0001" 1 "52998224725"))
     <= Z.max 0 3.
Proof.
  apply (saques_de_um_dia 3 (mk_date 2026 11 3) sessao_exemplo "0001" 1 "52998224725");
    repeat constructor.
Defined.

Lemma formatar_moeda_troca_separadores_witness :
  formatar_moeda (float_de_inteiro 1234567)
  = "R$ " +:+ mapear trocar_separador (formato_milhar_2f (float_de_inteiro 1234567))
  /\ String.length (formatar_moeda (float_de_inteiro 1234567))
     = (3 + String.length (formato_milhar_2f (float_de_inteiro 1234567)))%nat.
Proof.
  apply (formatar_moeda_troca_separadores (float_de_inteiro 1234567)).
  vm_compute. reflexivity.
Defined.

Lemma volta_nao_toca_nas_outras_contas_witness :
  m_contas (fst (volta tempo_dia_4 mundo_exemplo)) !! 2
  = Some (Conta_init "0001" 2 "52998224725").
Proof.
  apply (volta_nao_toca_nas_outras_contas tempo_dia_4 mundo_exemplo 2).
  - vm_compute. reflexivity.
  - vm_compute. discriminate.
Defined.

Lemma main_saldos_nao_negativos_witness :
  Forall (fun l => linha_finita l = true) entrada_exemplo
  /\ exists c,
      m_contas (fst (main tempo_dia_4 entrada_exemplo)) !! 1 = Some c
      /\ fle fzero (saldo c) = true.
Proof.
  assert (H : Forall (fun l => linha_finita l = true) entrada_exemplo).
  { repeat (constructor; [vm_compute; reflexivity|]). constructor. }
  split; [exact H|].
  destruct (m_contas (fst (main tempo_dia_4 entrada_exemplo)) !! 1) as [c|] eqn:E;
    [|vm_compute in E; discriminate].
  exists c. split; [reflexivity|].
  exact (main_saldos_nao_negativos tempo_dia_4 entrada_exemplo H 1 c E).
Defined.

Lemma acesso_a_conta_inexistente_witness :
  m_conta_atual mundo_acesso = Some 1
  /\ snd (volta tempo_dia_4 mundo_acesso) = true
  /\ m_conta_atual (fst (volta tempo_dia_4 mundo_acesso)) = None
  /\ m_usuarios (fst (volta tempo_dia_4 mundo_acesso)) = m_usuarios mundo_acesso
  /\ m_contas (fst (volta tempo_dia_4 mundo_acesso)) = m_contas mundo_acesso
  /\ m_entrada (fst (volta tempo_dia_4 mundo_acesso)) = ["q"]
  /\ m_saida (fst (volta tempo_dia_4 mundo_acesso))
     = (m_saida mundo_acesso
        ++ [MENU; txt_numero_conta; txt_conta_nao_encontrada +:+ nl])%list.
Proof.
  split; [reflexivity|].
  apply (acesso_a_conta_inexistente tempo_dia_4 mundo_acesso " AC " " 7 " ["q"] 7).
  - reflexivity.
  - vm_compute. reflexivity.
  - apply insert_non_empty.
  - vm_compute. reflexivity.
  - vm_compute. reflexivity.
Defined.
